(** * pybinding/shape.py: shape descriptors

    A shallow embedding of [pybinding/shape.py] (the [Polygon] value object and
    the factory functions [primitive], [rectangle], [regular_polygon] and
    [translational_symmetry]) together with the properties its specification
    states about them.

    The Python code is dynamically typed and computes with machine floats.
    The embedding is written against an interface of the arithmetic ([Arith],
    [Libm]); the program runs on its instance [ieee]: Python floats are IEEE
    754 binary64 values, [numpy.float32] is binary32, and every operation
    rounds to nearest-even as the hardware does.  The C library's [sin] and
    [cos] are not specified bit for bit by any standard: they stay parameters
    of the instance, and what is needed of them is stated where it is
    needed. *)

From Stdlib Require Import String ZArith List Bool Lia.
From Stdlib Require Import SpecFloat.
From Stdlib Require Import QArith.
Import ListNotations.

Open Scope Z_scope.

(** ** Exceptions and results *)

(** The exceptions the code can raise.  [ValueError] carries its message: the
    source raises one with a message of its own, the interpreter raises the
    others when a tuple is unpacked. *)
Inductive exn : Type :=
| ValueError (msg : string)
| TypeError
| OverflowError
| ZeroDivisionError.

Inductive result (A : Type) : Type :=
| Ok (a : A)
| Raise (e : exn).

Arguments Ok {A} a.
Arguments Raise {A} e.

Definition bind {A B : Type} (c : result A) (k : A -> result B) : result B :=
  match c with
  | Ok a => k a
  | Raise e => Raise e
  end.

Declare Scope py_scope.
Delimit Scope py_scope with py.
Notation "x <- c ;; k" := (bind c (fun x => k))
  (at level 61, c at next level, right associativity) : py_scope.
Open Scope py_scope.

(** A list comprehension whose body can raise: the elements are computed from
    left to right and the first exception ends the comprehension. *)
Fixpoint mapM {A B : Type} (f : A -> result B) (l : list A) : result (list B) :=
  match l with
  | [] => Ok []
  | a :: l' => b <- f a ;; bs <- mapM f l' ;; Ok (b :: bs)
  end.

(** ** The arithmetic the code runs on *)

Class Arith : Type := {
  (** a Python [float], that is a C [double] *)
  float : Type;
  (** a [numpy.float32] scalar *)
  float32 : Type;
  (** [int] to [float], as [PyLong_AsDouble] does it *)
  of_int : Z -> result float;
  (** [a / b] on two [int]s, [b] not zero *)
  int_truediv : Z -> Z -> result float;
  fadd : float -> float -> float;
  fmul : float -> float -> float;
  fdiv : float -> float -> float;
  fneg : float -> float;
  fis_zero : float -> bool;
  fis_inf : float -> bool;
  (** numerical equality of two floats *)
  feqb : float -> float -> bool;
  (** the conversion [np.array(..., dtype=np.float32)] applies to a [double] *)
  to_float32 : float -> float32;
  (** the [float] a [float32] is equal to *)
  of_float32 : float32 -> float
}.

(** What the code imports from [math]. *)
Class Libm (A : Arith) : Type := {
  (** [math.pi] *)
  math_pi : float;
  (** the C library's [sin] and [cos], which [math.sin] and [math.cos] call *)
  libm_sin : float -> float;
  libm_cos : float -> float
}.

(** ** IEEE 754 instance *)

Definition b64_of_Z (z : Z) : spec_float := binary_normalize 53 1024 z 0 false.

(** [PyLong_AsDouble]: the nearest double, [OverflowError] when there is none. *)
Definition ieee_of_int (z : Z) : result spec_float :=
  match b64_of_Z z with
  | S754_infinity _ => Raise OverflowError
  | f => Ok f
  end.

Definition Z_as_fraction (z : Z) : spec_float :=
  match z with
  | Z0 => S754_zero false
  | Zpos p => S754_finite false p 0
  | Zneg p => S754_finite true p 0
  end.

(** [long_true_divide]: the quotient of the two integers, rounded once. *)
Definition ieee_int_truediv (a b : Z) : result spec_float :=
  match SFdiv 53 1024 (Z_as_fraction a) (Z_as_fraction b) with
  | S754_infinity _ => Raise OverflowError
  | q => Ok q
  end.

Definition is_zero (f : spec_float) : bool :=
  match f with
  | S754_zero _ => true
  | _ => false
  end.

Definition is_inf (f : spec_float) : bool :=
  match f with
  | S754_infinity _ => true
  | _ => false
  end.

(** The C cast from [double] to [float]. *)
Definition b32_of_b64 (f : spec_float) : spec_float :=
  match f with
  | S754_finite s m e => binary_round 24 128 s m e
  | _ => f
  end.

(** The C cast from [float] to [double]; it is exact. *)
Definition b64_of_b32 (f : spec_float) : spec_float :=
  match f with
  | S754_finite s m e => binary_round 53 1024 s m e
  | _ => f
  end.

Definition ieee : Arith := {|
  float := spec_float;
  float32 := spec_float;
  of_int := ieee_of_int;
  int_truediv := ieee_int_truediv;
  fadd := SFadd 53 1024;
  fmul := SFmul 53 1024;
  fdiv := SFdiv 53 1024;
  fneg := SFopp;
  fis_zero := is_zero;
  fis_inf := is_inf;
  feqb := SFeqb;
  to_float32 := b32_of_b64;
  of_float32 := b64_of_b32
|}.

(** [math.pi], the double [3.141592653589793]. *)
Definition b64_pi : spec_float := S754_finite false 7074237752028440 (-51).

(** [0.1], the double nearest to one tenth. *)
Definition b64_0_1 : spec_float := S754_finite false 7205759403792794 (-56).

(** [0.2], the double nearest to one fifth. *)
Definition b64_0_2 : spec_float := S754_finite false 7205759403792794 (-55).

(** [2.5], a double. *)
Definition b64_2_5 : spec_float := S754_finite false 5629499534213120 (-51).

(** The triangle [(0.1, 0.0)], [(1.0, 0.0)], [(0.0, 1.0)]. *)
Definition tenth_triangle : list (spec_float * spec_float) :=
  [(b64_0_1, b64_of_Z 0); (b64_of_Z 1, b64_of_Z 0); (b64_of_Z 0, b64_of_Z 1)].

(** [math] over IEEE doubles: [math.pi] is the double above, the C library's
    [sin] and [cos] are left open. *)
Definition ieee_libm (c_sin c_cos : spec_float -> spec_float) : Libm ieee :=
  @Build_Libm ieee b64_pi c_sin c_cos.

(** The double [0 + 2 * n * pi / 4]. *)
Definition ieee_angle (n : Z) : spec_float :=
  SFadd 53 1024 (b64_of_Z 0)
        (SFdiv 53 1024 (SFmul 53 1024 (b64_of_Z (2 * n)) b64_pi) (b64_of_Z 4)).

(** The integer a float is equal to, when it is equal to one. *)
Definition integer_value (f : spec_float) : option Z :=
  match f with
  | S754_zero _ => Some 0
  | S754_finite s m e =>
      if 0 <=? e then Some (cond_Zopp s (Zpos m * 2 ^ e))
      else if Zpos m mod 2 ^ (- e) =? 0 then Some (cond_Zopp s (Zpos m / 2 ^ (- e)))
      else None
  | _ => None
  end.

(** ** Built-ins *)

(** [zip] applied to the unpacked [rows]: the columns of [rows], as many as
    the shortest row has elements; no column at all when there is no row. *)
Definition heads {T : Type} (rows : list (list T)) : option (list T) :=
  fold_right (fun row acc =>
                match row, acc with
                | a :: _, Some hs => Some (a :: hs)
                | _, _ => None
                end) (Some []) rows.

Fixpoint zip_columns {T : Type} (first : list T) (rest : list (list T)) : list (list T) :=
  match first with
  | [] => []
  | a :: first' =>
      match heads rest with
      | Some hs => (a :: hs) :: zip_columns first' (map (@tl T) rest)
      | None => []
      end
  end.

Definition zip_star {T : Type} (rows : list (list T)) : list (list T) :=
  match rows with
  | [] => []
  | first :: rest => zip_columns first rest
  end.

(** [a, b = it]: the interpreter raises [ValueError] unless [it] yields exactly
    two items. *)
Definition unpack2 {T : Type} (items : list T) : result (T * T) :=
  match items with
  | [] => Raise (ValueError "not enough values to unpack (expected 2, got 0)")
  | [_] => Raise (ValueError "not enough values to unpack (expected 2, got 1)")
  | [a; b] => Ok (a, b)
  | _ => Raise (ValueError "too many values to unpack (expected 2)")
  end.

(** [range(n)] *)
Definition range (n : Z) : list Z := map Z.of_nat (seq 0 (Z.to_nat n)).

(** [len(l)] *)
Definition len {T : Type} (l : list T) : Z := Z.of_nat (length l).

Section Shape.
Context {A : Arith}.

(** ** Python values *)

Inductive pynum : Type :=
| PyInt (z : Z)
| PyFloat (f : float).

Inductive pyval : Type :=
| PyNone
| PyBool (b : bool)
| PyNum (n : pynum).

Definition as_float (n : pynum) : result float :=
  match n with
  | PyInt z => of_int z
  | PyFloat f => Ok f
  end.

(** [a + b], [a * b], [a / b] and [-a] on numbers: exact on two [int]s
    ([/] apart, which always gives a [float]), in doubles otherwise. *)
Definition py_add (a b : pynum) : result pynum :=
  match a, b with
  | PyInt m, PyInt n => Ok (PyInt (m + n))
  | _, _ => fa <- as_float a ;; fb <- as_float b ;; Ok (PyFloat (fadd fa fb))
  end.

Definition py_mul (a b : pynum) : result pynum :=
  match a, b with
  | PyInt m, PyInt n => Ok (PyInt (m * n))
  | _, _ => fa <- as_float a ;; fb <- as_float b ;; Ok (PyFloat (fmul fa fb))
  end.

Definition py_truediv (a b : pynum) : result pynum :=
  match a, b with
  | PyInt m, PyInt n =>
      if n =? 0 then Raise ZeroDivisionError
      else q <- int_truediv m n ;; Ok (PyFloat q)
  | _, _ =>
      fa <- as_float a ;; fb <- as_float b ;;
      if fis_zero fb then Raise ZeroDivisionError
      else Ok (PyFloat (fdiv fa fb))
  end.

Definition py_neg (a : pynum) : pynum :=
  match a with
  | PyInt m => PyInt (- m)
  | PyFloat f => PyFloat (fneg f)
  end.

(** The number an operand of an arithmetic operator stands for: [bool] is a
    subclass of [int], [None] is no number. *)
Definition as_num (v : pyval) : result pynum :=
  match v with
  | PyNone => Raise TypeError
  | PyBool b => Ok (PyInt (Z.b2z b))
  | PyNum n => Ok n
  end.

(** Truth value of an object, as [if v] and [v or w] test it. *)
Definition truthy (v : pyval) : bool :=
  match v with
  | PyNone => false
  | PyBool b => b
  | PyNum (PyInt z) => negb (z =? 0)
  | PyNum (PyFloat f) => negb (fis_zero f)
  end.

(** [v is False], [v is True]: identity with the two [bool] singletons. *)
Definition is_False (v : pyval) : bool :=
  match v with
  | PyBool false => true
  | _ => false
  end.

Definition is_True (v : pyval) : bool :=
  match v with
  | PyBool true => true
  | _ => false
  end.

(** [np.array(t, dtype=np.float32)] on a tuple of numbers: each item goes
    through a [double] and is cast to [float]. *)
Definition np_float32 (n : pynum) : result float32 :=
  d <- as_float n ;; Ok (to_float32 d).

Definition np_array_float32 (t : list pynum) : result (list float32) :=
  mapM np_float32 t.

(** ** [class Polygon] *)

(** Modelled from the spec: [_cpp.Polygon], the native polygon handle
    storing the x and y arrays.  Its C++ definition is not part of the
    Python sources; the handle starts with both arrays empty. *)
Record polygon : Type := { x : list float32; y : list float32 }.

Definition cpp_Polygon : polygon := {| x := []; y := [] |}.

(** Methods run on the object they mutate and can raise: a computation is a
    function from the object's state to its new state and an outcome. *)
Definition M (B : Type) : Type := polygon -> polygon * result B.

Definition lift {B : Type} (r : result B) : M B := fun self => (self, r).

Definition bindM {B C : Type} (c : M B) (k : B -> M C) : M C :=
  fun self =>
    match c self with
    | (self', Ok b) => k b self'
    | (self', Raise e) => (self', Raise e)
    end.

Definition set_x (v : list float32) : M unit :=
  fun self => ({| x := v; y := y self |}, Ok tt).

Definition set_y (v : list float32) : M unit :=
  fun self => ({| x := x self; y := v |}, Ok tt).

Notation "x <<- c ;; k" := (bindM c (fun x => k))
  (at level 61, c at next level, right associativity).

(** The getter of [vertices]: [list(zip(self.x, self.y))]. *)
Definition vertices (self : polygon) : list (float32 * float32) :=
  combine (x self) (y self).

(** The setter of [vertices]. *)
Definition set_vertices (vertices : list (list pynum)) : M unit :=
  xy <<- lift (unpack2 (zip_star vertices)) ;;
  if len (fst xy) <? 3
  then lift (Raise (ValueError "A polygon must have at least 3 sides"))
  else
    ax <<- lift (np_array_float32 (fst xy)) ;;
    _ <<- set_x ax ;;
    ay <<- lift (np_array_float32 (snd xy)) ;;
    set_y ay.

(** [Polygon(vertices)]: [__init__] builds the native handle and assigns
    [vertices]; an exception leaves the caller without an object. *)
Definition Polygon (vertices : list (list pynum)) : result polygon :=
  match set_vertices vertices cpp_Polygon with
  | (self, Ok _) => Ok self
  | (_, Raise e) => Raise e
  end.

(** ** [primitive] *)

(** Modelled from the spec: [_cpp.Primitive], the primitive-cell
    descriptor, a triple of lengths and one flag; the native class is not
    part of the Python sources. *)
Record Primitive : Type := {
  prim_lengths : pyval * pyval * pyval;
  prim_nanometers : bool
}.

(** [v or w] *)
Definition py_or (v w : pyval) : pyval := if truthy v then v else w.

Definition primitive (v1 v2 v3 : pyval) (nanometers : bool) : Primitive :=
  let zero := PyNum (PyInt 0) in
  {| prim_lengths := (py_or v1 zero, py_or v2 zero, py_or v3 zero);
     prim_nanometers := nanometers |}.

(** Modelled from the spec: how the native consumer reads the lengths of a
    primitive-cell descriptor, "each either a count of unit-vector lengths
    or, if a flag is set, a length in nanometers". *)
Inductive length_unit : Type := UnitVectorLengths | Nanometers.

Inductive direction : Type := D1 | D2 | D3.

Definition prim_unit (p : Primitive) (d : direction) : length_unit :=
  if prim_nanometers p then Nanometers else UnitVectorLengths.

Definition prim_length (p : Primitive) (d : direction) : pyval :=
  match d, prim_lengths p with
  | D1, (l1, _, _) => l1
  | D2, (_, l2, _) => l2
  | D3, (_, _, l3) => l3
  end.

(** ** [rectangle] *)

Definition rectangle (x y : pyval) : result polygon :=
  let y := if truthy y then y else x in
  xn <- as_num x ;;
  x0 <- py_truediv xn (PyInt 2) ;;
  yn <- as_num y ;;
  y0 <- py_truediv yn (PyInt 2) ;;
  Polygon [[x0; y0]; [x0; py_neg y0]; [py_neg x0; py_neg y0]; [py_neg x0; y0]].

(** ** [translational_symmetry] *)

(** Modelled from the spec: [_cpp.Translational], the symmetry descriptor
    built from the three encoded values; the native class is not part of
    the Python sources. *)
Record Translational : Type := { trans_lengths : pyval * pyval * pyval }.

Definition to_cpp_params (value : pyval) : pyval :=
  if is_False value then PyNum (PyInt (-1))
  else if is_True value then PyNum (PyInt 0)
  else value.

Definition translational_symmetry (a1 a2 a3 : pyval) : Translational :=
  {| trans_lengths := (to_cpp_params a1, to_cpp_params a2, to_cpp_params a3) |}.

(** ** [regular_polygon] *)

Context {L : Libm A}.

(** [math.sin] and [math.cos] take a number, compute in doubles and raise
    [ValueError] at an infinity. *)
Definition math_sin (a : pynum) : result pynum :=
  f <- as_float a ;;
  if fis_inf f then Raise (ValueError "math domain error")
  else Ok (PyFloat (libm_sin f)).

Definition math_cos (a : pynum) : result pynum :=
  f <- as_float a ;;
  if fis_inf f then Raise (ValueError "math domain error")
  else Ok (PyFloat (libm_cos f)).

(** [angle + 2 * n * pi / num_sides] *)
Definition polygon_angle (num_sides : Z) (angle : pynum) (n : Z) : result pynum :=
  t <- py_mul (PyInt 2) (PyInt n) ;;
  t <- py_mul t (PyFloat math_pi) ;;
  t <- py_truediv t (PyInt num_sides) ;;
  py_add angle t.

(** [(radius * sin(a), radius * cos(a))] *)
Definition polygon_point (radius : pynum) (a : pynum) : result (list pynum) :=
  s <- math_sin a ;;
  px <- py_mul radius s ;;
  c <- math_cos a ;;
  py <- py_mul radius c ;;
  Ok [px; py].

Definition regular_polygon (num_sides : Z) (radius angle : pynum) : result polygon :=
  angles <- mapM (polygon_angle num_sides angle) (range num_sides) ;;
  points <- mapM (polygon_point radius) angles ;;
  Polygon points.

End Shape.

(** A Polygon object of the IEEE instance, from its two arrays. *)
Definition ieee_polygon (xs ys : list spec_float) : @polygon ieee :=
  @Build_polygon ieee xs ys.

(** Python numbers of the IEEE instance. *)
Definition py_int (z : Z) : @pyval ieee := PyNum (PyInt z).

Definition py_float (f : spec_float) : @pyval ieee := PyNum (@PyFloat ieee f).

(** The single-precision values of the integer [z] and of the double [0.1]. *)
Definition b32_of_Z (z : Z) : spec_float := b32_of_b64 (b64_of_Z z).

Definition b32_0_1 : spec_float := S754_finite false 13421773 (-27).

(** The objects three of the examples build: the triangle [tenth_triangle],
    the square of side 4 and the square of side 0.2. *)
Definition stored_tenth_triangle : @polygon ieee :=
  ieee_polygon [b32_0_1; b32_of_Z 1; b32_of_Z 0] [b32_of_Z 0; b32_of_Z 0; b32_of_Z 1].

Definition square_4 : @polygon ieee :=
  ieee_polygon [b32_of_Z 2; b32_of_Z 2; b32_of_Z (-2); b32_of_Z (-2)]
               [b32_of_Z 2; b32_of_Z (-2); b32_of_Z (-2); b32_of_Z 2].

Definition square_0_2 : @polygon ieee :=
  ieee_polygon [b32_0_1; b32_0_1; SFopp b32_0_1; SFopp b32_0_1]
               [b32_0_1; SFopp b32_0_1; SFopp b32_0_1; b32_0_1].

(** ** Exact values and turns *)

(** The rational number a float is equal to, when it is finite. *)
Definition exact (f : spec_float) : option Q :=
  match f with
  | S754_zero _ => Some 0%Q
  | S754_finite s m e => Some (inject_Z (cond_Zopp s (Zpos m)) * Qpower 2 e)%Q
  | S754_infinity _ | S754_nan => None
  end.

(** The cross product [ux * vy - uy * vx] of two points with finite
    coordinates, computed exactly. *)
Definition cross (u v : spec_float * spec_float) : option Q :=
  match exact (fst u), exact (snd u), exact (fst v), exact (snd v) with
  | Some ux, Some uy, Some vx, Some vy => Some (ux * vy - uy * vx)%Q
  | _, _, _, _ => None
  end.

(** The turn about the origin that leads from [u] to [v], with x to the
    right and y upwards: the sign of the cross product, [Gt] for a
    counter-clockwise turn, [Lt] for a clockwise one, [Eq] when the origin
    and the two points are aligned. *)
Definition turn (u v : spec_float * spec_float) : option comparison :=
  option_map (fun c => (c ?= 0)%Q) (cross u v).



(** The turns of a list of vertices: from each to the next, and from the
    last back to the first. *)
Definition turns (vs : list (spec_float * spec_float)) : list (option comparison) :=
  match vs with
  | [] => []
  | v0 :: rest => map (fun uv => turn (fst uv) (snd uv)) (combine vs (rest ++ [v0]))
  end.

(** ** The example [regular_polygon(4, 1, 0)] *)

(** The doubles [sin] and [cos] of the C library (glibc) return at the four
    angles [ieee_angle 0], ..., [ieee_angle 3] of the example: [0.0], [1.0],
    [1.2246467991473532e-16], [-1.0] and [1.0], [6.123233995736766e-17],
    [-1.0], [-1.8369701987210297e-16]. *)
Definition quarter_turn_sines : list spec_float :=
  [S754_zero false; b64_of_Z 1; S754_finite false 4967757600021511 (-105); b64_of_Z (-1)].

Definition quarter_turn_cosines : list spec_float :=
  [b64_of_Z 1; S754_finite false 4967757600021511 (-106); b64_of_Z (-1);
   S754_finite true 7451636400032266 (-105)].

(** A C library whose [sin] and [cos] have these values at the four angles. *)
Definition quarter_turn_values (c_sin c_cos : spec_float -> spec_float) : Prop :=
  map c_sin (map ieee_angle [0; 1; 2; 3]) = quarter_turn_sines /\
  map c_cos (map ieee_angle [0; 1; 2; 3]) = quarter_turn_cosines.

(** The function that has the listed values at the four angles; the example
    applies it to no other argument. *)
Definition at_quarter_turns (values : list spec_float) (a : spec_float) : spec_float :=
  match a with
  | S754_zero _ => nth 0 values S754_nan
  | S754_finite false 7074237752028440 (-52) => nth 1 values S754_nan
  | S754_finite false 7074237752028440 (-51) => nth 2 values S754_nan
  | S754_finite false 5305678314021330 (-50) => nth 3 values S754_nan
  | _ => S754_nan
  end.

(** The object the example builds from these values: the single-precision
    vertices [(0, 1)], [(1, 6.12e-17)], [(1.22e-16, -1)] and
    [(-1, -1.84e-16)]. *)
Definition unit_diamond : @polygon ieee :=
  ieee_polygon
    [b32_of_Z 0; b32_of_Z 1; S754_finite false 9253170 (-76); b32_of_Z (-1)]
    [b32_of_Z 1; S754_finite false 9253170 (-77); b32_of_Z (-1);
     S754_finite true 13879754 (-76)].

(** [1e-50], a double too small for single precision. *)
Definition b64_1e_50 : spec_float := S754_finite false 8424983333484575 (-219).

(** ** Vocabulary of the specification *)

(** A two-dimensional point [(a, b)], as the sequence [Polygon] is given. *)
Definition point2 {T : Type} (p : T * T) : list T := [fst p; snd p].

Section Vocabulary.
Context {A : Arith}.

(** The tri-state encoding as the specification words it: [False] is
    disabled (-1), [True] is automatic (0), anything else is a manual
    length and stands for itself. *)
Definition tri_state_encoding (v : pyval) : pyval :=
  match v with
  | PyBool false => PyNum (PyInt (-1))
  | PyBool true => PyNum (PyInt 0)
  | PyNone | PyNum _ => v
  end.

(** [v / 2] *)
Definition halved (v : pyval) : result pynum :=
  n <- as_num v ;; py_truediv n (PyInt 2).

(** The corners of the rectangle with half-sides [x0] and [y0], in the
    order the specification lists them. *)
Definition corners (x0 y0 : float) : list (float * float) :=
  [(x0, y0); (x0, fneg y0); (fneg x0, fneg y0); (fneg x0, y0)].

(** What storing a pair of doubles in the two [float32] arrays keeps. *)
Definition stored (p : float * float) : float32 * float32 :=
  (to_float32 (fst p), to_float32 (snd p)).

(** The pair of doubles with the values of a pair read back. *)
Definition widened (p : float32 * float32) : float * float :=
  (of_float32 (fst p), of_float32 (snd p)).

(** Numerical equality of two points, and of two lists of points. *)
Definition same_point (p q : float * float) : bool :=
  feqb (fst p) (fst q) && feqb (snd p) (snd q).

Fixpoint same_points (l l' : list (float * float)) : bool :=
  match l, l' with
  | [], [] => true
  | p :: l, q :: l' => same_point p q && same_points l l'
  | _, _ => false
  end.

(** The vertices read back from [p] have the values of the pairs [fs], in
    the same order. *)
Definition reads_back (p : polygon) (fs : list (float * float)) : bool :=
  same_points (map widened (vertices p)) fs.

(** What [np.array(..., dtype=np.float32)] makes of each coordinate of a
    list of points. *)
Definition converts (pts : list (pynum * pynum)) (out : list (float32 * float32)) : Prop :=
  Forall2 (fun p q => np_float32 (fst p) = Ok (fst q) /\ np_float32 (snd p) = Ok (snd q))
          pts out.

(** A point given as two floats. *)
Definition float_point (p : float * float) : pynum * pynum :=
  (PyFloat (fst p), PyFloat (snd p)).

(** The argument of [primitive] for each direction. *)
Definition prim_argument (v1 v2 v3 : pyval) (d : direction) : pyval :=
  match d with
  | D1 => v1
  | D2 => v2
  | D3 => v3
  end.

Context {L : Libm A}.

(** The angle [angle + 2 * n * pi / num_sides] of a vertex, from the doubles
    of [angle], of [2 * n] and of [num_sides]. *)
Definition vertex_angle (a0 f2n fN : float) : float :=
  fadd a0 (fdiv (fmul f2n math_pi) fN).

(** The point [(radius * sin(a), radius * cos(a))], from the doubles of
    [radius] and [a]. *)
Definition vertex (r a : float) : float * float :=
  (fmul r (libm_sin a), fmul r (libm_cos a)).
End Vocabulary.

(** ** [Polygon.plot] *)

Section Plot.
Context {A : Arith}.

(** What [plot] gets to before it draws: the two arrays it hands to
    [plt.plot], or the [IndexError] that [self.x[0]] or [self.y[0]] raises on
    an empty array. *)
Inductive outline : Type :=
| Outline (xs ys : list float32)
| IndexError.

(** [np.append(a, v)] *)
Definition np_append (a : list float32) (v : float32) : list float32 := a ++ [v].

(** The arguments [np.append(self.x, self.x[0])] and
    [np.append(self.y, self.y[0])] of the call of [plt.plot]. *)
Definition plot_outline (self : polygon) : outline :=
  match hd_error (x self) with
  | None => IndexError
  | Some x0 =>
      match hd_error (y self) with
      | None => IndexError
      | Some y0 => Outline (np_append (x self) x0) (np_append (y self) y0)
      end
  end.

(** The points of an outline, as pairs. *)
Definition outline_points (o : outline) : list (float32 * float32) :=
  match o with
  | Outline xs ys => combine xs ys
  | IndexError => []
  end.

End Plot.

(** A list of points [Polygon] accepts the shape of: three points or more,
    each with two coordinates at least, one of them with exactly two. *)
Definition well_shaped {T : Type} (vs : list (list T)) : Prop :=
  (3 <= length vs)%nat /\
  Forall (fun pt => (2 <= length pt)%nat) vs /\
  Exists (fun pt => length pt = 2%nat) vs.

(** ** Lists, [zip] and unpacking *)

Lemma heads_cons {T : Type} (row : list T) (rows : list (list T)) :
  heads (row :: rows) =
  match row, heads rows with
  | a :: _, Some hs => Some (a :: hs)
  | _, _ => None
  end.
Proof. reflexivity. Qed.

Lemma heads_length {T : Type} (rows : list (list T)) (hs : list T) :
  heads rows = Some hs -> length hs = length rows.
Proof.
  revert hs. induction rows as [|row rows IH]; intros hs H.
  - injection H as <-. reflexivity.
  - rewrite heads_cons in H. destruct row as [|a row]; [discriminate|].
    destruct (heads rows) as [hs'|]; [|discriminate].
    injection H as <-. cbn. f_equal. now apply IH.
Qed.

Lemma zip_columns_width {T : Type} (first : list T) (rest : list (list T)) :
  Forall (fun col => length col = S (length rest)) (zip_columns first rest).
Proof.
  revert rest. induction first as [|a first IH]; intros rest; cbn [zip_columns].
  - constructor.
  - destruct (heads rest) as [hs|] eqn:E; [|constructor].
    constructor.
    + cbn. f_equal. now apply heads_length.
    + specialize (IH (map (@tl T) rest)). now rewrite length_map in IH.
Qed.

Lemma zip_star_width {T : Type} (rows : list (list T)) :
  Forall (fun col => length col = length rows) (zip_star rows).
Proof.
  destruct rows as [|first rest]; cbn [zip_star].
  - constructor.
  - apply zip_columns_width.
Qed.

Lemma heads_points {T : Type} (pts : list (T * T)) :
  heads (map point2 pts) = Some (map fst pts).
Proof.
  induction pts as [|p pts IH]; [reflexivity|].
  cbn [map]. rewrite heads_cons, IH. reflexivity.
Qed.

Lemma heads_tl_points {T : Type} (pts : list (T * T)) :
  heads (map (@tl T) (map point2 pts)) = Some (map snd pts).
Proof.
  induction pts as [|p pts IH]; [reflexivity|].
  cbn [map]. rewrite heads_cons, IH. reflexivity.
Qed.

(** The columns of a non-empty list of two-dimensional points are the
    x-coordinates and the y-coordinates. *)
Lemma zip_star_points {T : Type} (pts : list (T * T)) :
  pts <> [] -> zip_star (map point2 pts) = [map fst pts; map snd pts].
Proof.
  destruct pts as [|p pts]; [congruence|]. intros _.
  change (zip_star (map point2 (p :: pts)))
    with (zip_columns (point2 p) (map point2 pts)).
  unfold point2 at 1. cbn [zip_columns].
  rewrite heads_points, heads_tl_points. reflexivity.
Qed.

Lemma combine_fst_snd {T U : Type} (l : list (T * U)) :
  combine (map fst l) (map snd l) = l.
Proof.
  induction l as [|[a b] l IH]; cbn; [reflexivity|]. now rewrite IH.
Qed.

Lemma mapM_Forall2 {T U : Type} (f : T -> result U) (l : list T) (l' : list U) :
  Forall2 (fun a b => f a = Ok b) l l' -> mapM f l = Ok l'.
Proof.
  induction 1 as [|a b l l' Hab _ IH]; cbn; [reflexivity|].
  now rewrite Hab, IH.
Qed.

Lemma mapM_length {T U : Type} (f : T -> result U) (l : list T) (l' : list U) :
  mapM f l = Ok l' -> length l' = length l.
Proof.
  revert l'. induction l as [|a l IH]; cbn; intros l' H.
  - injection H as <-. reflexivity.
  - destruct (f a) as [b|e]; [|discriminate]. cbn in H.
    destruct (mapM f l) as [bs|e]; [|discriminate]. cbn in H.
    injection H as <-. cbn. f_equal. now apply IH.
Qed.

Lemma range_length (n : Z) : length (range n) = Z.to_nat n.
Proof. unfold range. now rewrite length_map, length_seq. Qed.

(** ** The [Polygon] value object *)

Section PolygonProperties.
Context {A : Arith}.

Lemma converts_x pts out :
  converts pts out -> np_array_float32 (map fst pts) = Ok (map fst out).
Proof.
  intros H. apply mapM_Forall2.
  induction H as [|p q pts out [Hx _] _ IH]; cbn; constructor; assumption.
Qed.

Lemma converts_y pts out :
  converts pts out -> np_array_float32 (map snd pts) = Ok (map snd out).
Proof.
  intros H. apply mapM_Forall2.
  induction H as [|p q pts out [_ Hy] _ IH]; cbn; constructor; assumption.
Qed.

(** The setter on a list of fewer than three points: [ValueError], and the
    object is the one the setter was given. *)
Lemma set_vertices_short (vs : list (list pynum)) (self : polygon) :
  (length vs < 3)%nat ->
  exists msg, set_vertices vs self = (self, Raise (ValueError msg)).
Proof.
  intros Hlen. unfold set_vertices, bindM, lift.
  pose proof (zip_star_width vs) as W.
  destruct (zip_star vs) as [|c1 [|c2 [|c3 cols]]]; cbn [unpack2];
    try (eexists; reflexivity).
  apply Forall_inv in W. cbn [fst]. unfold len. rewrite W.
  destruct (Z.ltb_spec (Z.of_nat (length vs)) 3) as [_|Hge]; [|lia].
  eexists; reflexivity.
Qed.

(** The setter on three two-dimensional points or more whose coordinates
    all convert: both arrays are replaced. *)
Lemma set_vertices_points (pts : list (pynum * pynum)) out (self : polygon) :
  (3 <= length pts)%nat ->
  converts pts out ->
  set_vertices (map point2 pts) self =
  ({| x := map fst out; y := map snd out |}, Ok tt).
Proof.
  intros Hlen Hc. unfold set_vertices, bindM, lift.
  rewrite zip_star_points by (destruct pts; [cbn in Hlen; lia | discriminate]).
  cbn [unpack2 fst snd]. unfold len. rewrite length_map.
  destruct (Z.ltb_spec (Z.of_nat (length pts)) 3) as [Hlt|_]; [lia|].
  rewrite (converts_x _ _ Hc). cbn [set_x].
  rewrite (converts_y _ _ Hc). reflexivity.
Qed.

Lemma Polygon_points (pts : list (pynum * pynum)) out :
  (3 <= length pts)%nat ->
  converts pts out ->
  Polygon (map point2 pts) = Ok {| x := map fst out; y := map snd out |}.
Proof.
  intros Hlen Hc. unfold Polygon.
  now rewrite (set_vertices_points pts out cpp_Polygon Hlen Hc).
Qed.

Lemma Polygon_short (vs : list (list pynum)) :
  (length vs < 3)%nat -> exists msg, Polygon vs = Raise (ValueError msg).
Proof.
  intros Hlen. unfold Polygon.
  destruct (set_vertices_short vs cpp_Polygon Hlen) as [msg ->].
  now exists msg.
Qed.

(** A point given as two floats always converts. *)
Lemma converts_floats (fs : list (float * float)) :
  converts (map float_point fs) (map stored fs).
Proof.
  induction fs as [|p fs IH]; cbn; constructor; auto.
Qed.

(** With float coordinates nothing can go wrong: the pairs read back are
    the pairs given, rounded to single precision. *)
Lemma polygon_vertices_floats (fs : list (float * float)) :
  (3 <= length fs)%nat ->
  exists p, Polygon (map point2 (map float_point fs)) = Ok p /\
            vertices p = map stored fs.
Proof.
  intros Hlen.
  exists {| x := map fst (map stored fs); y := map snd (map stored fs) |}. split.
  - apply Polygon_points; [now rewrite length_map | apply converts_floats].
  - apply combine_fst_snd.
Qed.

(** C1, as the code has it: a Polygon built from three two-dimensional
    points or more, each coordinate a number that converts to a double,
    exists, and reading [vertices] gives as many pairs, in the order of the
    input, each coordinate being the input's converted to [float32]. *)
Theorem polygon_vertices_roundtrip (pts : list (pynum * pynum)) out :
  (3 <= length pts)%nat ->
  converts pts out ->
  exists p, Polygon (map point2 pts) = Ok p /\ vertices p = out.
Proof.
  intros Hlen Hc. unfold Polygon.
  rewrite (set_vertices_points pts out cpp_Polygon Hlen Hc).
  eexists. split; [reflexivity|].
  unfold vertices. cbn [x y]. apply combine_fst_snd.
Qed.

(** C2: fewer than three points, of any dimension, make the constructor
    raise [ValueError], and equally the setter on any existing object. *)
Theorem polygon_too_few_vertices (vs : list (list pynum)) :
  (length vs < 3)%nat ->
  (exists msg, Polygon vs = Raise (ValueError msg)) /\
  (forall self, exists msg, snd (set_vertices vs self) = Raise (ValueError msg)).
Proof.
  intros Hlen. split.
  - now apply Polygon_short.
  - intros self. destruct (set_vertices_short vs self Hlen) as [msg ->].
    now exists msg.
Qed.

(** C9: a failed assignment of fewer than three points leaves the object as
    it was: both arrays, hence the vertices read back, are unchanged. *)
Theorem set_vertices_atomic_on_error (self : polygon) (vs : list (list pynum)) :
  (length vs < 3)%nat ->
  let self' := fst (set_vertices vs self) in
  (exists msg, snd (set_vertices vs self) = Raise (ValueError msg)) /\
  x self' = x self /\ y self' = y self /\ vertices self' = vertices self.
Proof.
  intros Hlen self'. subst self'.
  destruct (set_vertices_short vs self Hlen) as [msg ->]. cbn [fst snd].
  repeat split. now exists msg.
Qed.

End PolygonProperties.

(** ** [rectangle] *)

Section RectangleProperties.
Context {A : Arith}.

(** Once both halves are computed the four corners are stored in the order
    the source lists them. *)
Lemma rectangle_corners (x y : pyval) (x0 y0 : float) :
  halved x = Ok (PyFloat x0) ->
  halved (if truthy y then y else x) = Ok (PyFloat y0) ->
  exists p, rectangle x y = Ok p /\ vertices p = map stored (corners x0 y0).
Proof.
  unfold halved, rectangle. intros Hx Hy.
  destruct (as_num x) as [xn|e]; [|discriminate]. cbn [bind] in Hx |- *.
  rewrite Hx. cbn [bind].
  destruct (as_num (if truthy y then y else x)) as [yn|e]; [|discriminate].
  cbn [bind] in Hy |- *. rewrite Hy. cbn [bind py_neg].
  apply (polygon_vertices_floats (corners x0 y0)). cbn. lia.
Qed.


End RectangleProperties.

(** ** [primitive] and [translational_symmetry] *)

Section DescriptorProperties.
Context {A : Arith}.

Lemma to_cpp_params_tri_state (v : pyval) :
  to_cpp_params v = tri_state_encoding v.
Proof. now destruct v as [|[|]|n]. Qed.

End DescriptorProperties.

(** ** The claims on [rectangle], [primitive] and [translational_symmetry] *)

(** C4, as the code has it: whenever [y] is truthy and the two halves [x / 2]
    and [y / 2] are computed, [rectangle(x, y)] is a Polygon whose vertices
    are the four corners [(x0, y0)], [(x0, -y0)], [(-x0, -y0)], [(-x0, y0)],
    in that order, each coordinate stored in single precision; and
    [rectangle(4)] has the vertices [(2, 2)], [(2, -2)], [(-2, -2)],
    [(-2, 2)]. *)
Theorem rectangle_vertices :
  (forall (A : Arith) (x y : pyval) (x0 y0 : float),
      truthy y = true ->
      halved x = Ok (PyFloat x0) ->
      halved y = Ok (PyFloat y0) ->
      exists p, rectangle x y = Ok p /\ vertices p = map stored (corners x0 y0)) /\
  (exists p, rectangle (py_int 4) PyNone = Ok p /\
             map (fun v => (integer_value (fst v), integer_value (snd v))) (vertices p) =
             [(Some 2, Some 2); (Some 2, Some (-2)); (Some (-2), Some (-2)); (Some (-2), Some 2)]).
Proof.
  split.
  - intros A x y x0 y0 Ht Hx Hy. apply rectangle_corners; [assumption|].
    now rewrite Ht.
  - eexists. split; reflexivity.
Qed.


(** C7: a direction given as [None] has length 0, whatever the others are;
    the descriptor carries the one [nanometers] flag it was given, which sets
    the unit of all three directions alike; [primitive()] has the lengths
    [(0, 0, 0)]. *)
Theorem primitive_defaults :
  forall (A : Arith),
    let zero := PyNum (PyInt 0) in
    (forall v1 v2 v3 nm,
        prim_length (primitive PyNone v2 v3 nm) D1 = zero /\
        prim_length (primitive v1 PyNone v3 nm) D2 = zero /\
        prim_length (primitive v1 v2 PyNone nm) D3 = zero) /\
    (forall v1 v2 v3 nm,
        prim_nanometers (primitive v1 v2 v3 nm) = nm /\
        forall d, prim_unit (primitive v1 v2 v3 nm) d =
                  if nm then Nanometers else UnitVectorLengths) /\
    primitive PyNone PyNone PyNone false =
    {| prim_lengths := (zero, zero, zero); prim_nanometers := false |}.
Proof.
  intros A zero. repeat split.
Qed.

(** C3: each direction is encoded on its own, [False] as -1, [True] as 0 and
    any other value as itself; [translational_symmetry(a1=False, a2=True,
    a3=2.5)] is encoded as [(-1, 0, 2.5)]. *)
Theorem translational_symmetry_encoding :
  (forall (A : Arith) (a1 a2 a3 : pyval),
      trans_lengths (translational_symmetry a1 a2 a3) =
      (tri_state_encoding a1, tri_state_encoding a2, tri_state_encoding a3)) /\
  trans_lengths (translational_symmetry (PyBool false) (PyBool true) (py_float b64_2_5)) =
  (py_int (-1), py_int 0, py_float b64_2_5).
Proof.
  split.
  - intros A a1 a2 a3. cbn. now rewrite !to_cpp_params_tri_state.
  - reflexivity.
Qed.

(** C10: the numbers 0 and 1 are not the booleans and pass through, no
    length is range-checked, so [(0, 0, 0)] and [(True, True, True)] have one
    encoding, as have a manual length of -1 and [False]: the encoding is not
    injective. *)
Theorem translational_symmetry_not_injective :
  forall (A : Arith),
    let int (z : Z) := PyNum (PyInt z) in
    trans_lengths (translational_symmetry (int 0) (int 0) (int 0)) = (int 0, int 0, int 0) /\
    trans_lengths (translational_symmetry (int 1) (int 1) (int 1)) = (int 1, int 1, int 1) /\
    translational_symmetry (int 0) (int 0) (int 0) =
    translational_symmetry (PyBool true) (PyBool true) (PyBool true) /\
    translational_symmetry (int (-1)) (int (-1)) (int (-1)) =
    translational_symmetry (PyBool false) (PyBool false) (PyBool false) /\
    (exists a b : pyval, a <> b /\ to_cpp_params a = to_cpp_params b).
Proof.
  intros A int. repeat split.
  exists (int 0), (PyBool true). split; [discriminate | reflexivity].
Qed.

(** ** Single precision is visible in what is read back *)

Lemma tenth_triangle_polygon :
  Polygon (map point2 (map (@float_point ieee) tenth_triangle)) = Ok stored_tenth_triangle.
Proof. reflexivity. Qed.

Lemma tenth_triangle_differs : reads_back stored_tenth_triangle tenth_triangle = false.
Proof. reflexivity. Qed.

(** C1 as the specification states it fails: the Polygon of the triangle
    [(0.1, 0.0)], [(1.0, 0.0)], [(0.0, 1.0)] is built, but the x-coordinate
    read back for its first vertex is the [float32] nearest to 0.1, which is
    not the double 0.1. *)
Lemma polygon_roundtrip_rounds :
  ~ exists p, Polygon (map point2 (map (@float_point ieee) tenth_triangle)) = Ok p /\
              reads_back p tenth_triangle = true.
Proof.
  intros [p [Hp Hr]]. rewrite tenth_triangle_polygon in Hp.
  pose proof tenth_triangle_differs. congruence.
Qed.

(** A coordinate too large for a double makes the constructor raise
    [OverflowError], whatever the number of points. *)
Lemma polygon_huge_coordinate :
  @Polygon ieee [[PyInt (10 ^ 400); PyInt 0]; [PyInt 1; PyInt 0]; [PyInt 0; PyInt 1]] =
  Raise OverflowError.
Proof. reflexivity. Qed.

(** The setter assigns the x array before it converts the y-coordinates: an
    assignment of three points or more that fails on a y-coordinate has
    already replaced the x array. *)
Lemma set_vertices_partial_update :
  set_vertices [[@PyInt ieee 0; PyInt 0]; [PyInt 2; PyInt 0]; [PyInt 0; PyInt (10 ^ 400)]]
               square_4 =
  (ieee_polygon [b32_of_Z 0; b32_of_Z 2; b32_of_Z 0] (y square_4), Raise OverflowError).
Proof. reflexivity. Qed.

(** The triangle [(0, 0)], [(4, 0)], [(0, 2.5)], given with two kinds of
    numbers. *)
Lemma polygon_vertices_roundtrip_witness :
  let pts := [(@PyInt ieee 0, @PyInt ieee 0); (PyInt 4, PyInt 0);
              (PyInt 0, @PyFloat ieee b64_2_5)] in
  let out := [(b32_of_Z 0, b32_of_Z 0); (b32_of_Z 4, b32_of_Z 0);
              (b32_of_Z 0, b32_of_b64 b64_2_5)] in
  (3 <= length pts)%nat /\ converts pts out /\
  exists p, Polygon (map point2 pts) = Ok p /\ vertices p = out.
Proof.
  intros pts out.
  assert (Hlen : (3 <= length pts)%nat) by (cbn; lia).
  assert (Hc : converts pts out) by (repeat constructor).
  split; [exact Hlen|]. split; [exact Hc|].
  exact (@polygon_vertices_roundtrip ieee pts out Hlen Hc).
Defined.

(** Two points. *)
Lemma polygon_too_few_vertices_witness :
  let vs := [[@PyInt ieee 1; PyInt 2]; [PyInt 3; PyInt 4]] in
  (length vs < 3)%nat /\
  (exists msg, Polygon vs = Raise (ValueError msg)) /\
  (forall self, exists msg, snd (set_vertices vs self) = Raise (ValueError msg)).
Proof.
  intros vs.
  assert (Hlen : (length vs < 3)%nat) by (cbn; lia).
  split; [exact Hlen|].
  exact (@polygon_too_few_vertices ieee vs Hlen).
Defined.

(** One point assigned to the square of side 4. *)
Lemma set_vertices_atomic_on_error_witness :
  let vs := [[@PyInt ieee 1; PyInt 2]] in
  let self' := fst (set_vertices vs square_4) in
  (length vs < 3)%nat /\
  (exists msg, snd (set_vertices vs square_4) = Raise (ValueError msg)) /\
  x self' = x square_4 /\ y self' = y square_4 /\ vertices self' = vertices square_4.
Proof.
  intros vs.
  assert (Hlen : (length vs < 3)%nat) by (cbn; lia).
  split; [exact Hlen|].
  exact (@set_vertices_atomic_on_error ieee square_4 vs Hlen).
Defined.

Lemma rectangle_4_0 :
  rectangle (py_int 4) (py_int 0) = Ok square_4.
Proof. reflexivity. Qed.

Lemma rectangle_4_0_differs :
  reads_back square_4 (@corners ieee (b64_of_Z 2) (b64_of_Z 0)) = false.
Proof. reflexivity. Qed.

Lemma rectangle_0_2 :
  rectangle (py_float b64_0_2) (py_float b64_0_2) = Ok square_0_2.
Proof. reflexivity. Qed.

Lemma rectangle_0_2_differs :
  reads_back square_0_2 (@corners ieee b64_0_1 b64_0_1) = false.
Proof. reflexivity. Qed.

(** C4 as the specification states it fails.  At [y = 0]: [rectangle(4, 0)]
    is built, but its vertices are those of the square of side 4, not the
    four corners [(4/2, 0/2)], [(4/2, -0/2)], [(-4/2, -0/2)], [(-4/2, 0/2)].
    And at [x = y = 0.2]: the coordinates read back are the [float32] nearest
    to 0.1, not the double [0.2 / 2]. *)
Lemma rectangle_corners_differ :
  (~ exists p x0 y0,
       rectangle (py_int 4) (py_int 0) = Ok p /\
       halved (py_int 4) = Ok (@PyFloat ieee x0) /\
       halved (py_int 0) = Ok (@PyFloat ieee y0) /\
       reads_back p (corners x0 y0) = true) /\
  (~ exists p x0 y0,
       rectangle (py_float b64_0_2) (py_float b64_0_2) = Ok p /\
       halved (py_float b64_0_2) = Ok (@PyFloat ieee x0) /\
       halved (py_float b64_0_2) = Ok (@PyFloat ieee y0) /\
       reads_back p (corners x0 y0) = true).
Proof.
  split; intros [p [x0 [y0 [Hp [Hx [Hy Hr]]]]]].
  - rewrite rectangle_4_0 in Hp.
    change (Ok (@PyFloat ieee (b64_of_Z 2)) = Ok (@PyFloat ieee x0)) in Hx.
    change (Ok (@PyFloat ieee (b64_of_Z 0)) = Ok (@PyFloat ieee y0)) in Hy.
    pose proof rectangle_4_0_differs. congruence.
  - rewrite rectangle_0_2 in Hp.
    change (Ok (@PyFloat ieee b64_0_1) = Ok (@PyFloat ieee x0)) in Hx.
    change (Ok (@PyFloat ieee b64_0_1) = Ok (@PyFloat ieee y0)) in Hy.
    pose proof rectangle_0_2_differs. congruence.
Qed.

(** [rectangle(3, 0.1)] *)
Lemma rectangle_vertices_witness :
  let x := py_int 3 in
  let y := py_float b64_0_1 in
  exists x0 y0,
    truthy y = true /\
    halved x = Ok (@PyFloat ieee x0) /\ halved y = Ok (@PyFloat ieee y0) /\
    exists p, rectangle x y = Ok p /\ vertices p = map stored (corners x0 y0).
Proof.
  intros x y.
  exists (S754_finite false 6755399441055744 (-52)), (S754_finite false 7205759403792794 (-57)).
  split; [reflexivity|]. split; [reflexivity|]. split; [reflexivity|].
  apply (proj1 rectangle_vertices ieee x y); reflexivity.
Defined.


(** ** [regular_polygon] *)



Lemma in_range (num_sides n : Z) : In n (range num_sides) <-> 0 <= n < num_sides.
Proof.
  unfold range. rewrite in_map_iff. split.
  - intros [k [<- Hk]]. apply in_seq in Hk. lia.
  - intros Hn. exists (Z.to_nat n). split; [lia|]. apply in_seq. lia.
Qed.


Section RegularPolygonProperties.
Context {A : Arith} {L : Libm A}.

(** When the two comprehensions raise nothing, fewer than three sides make
    the constructor raise [ValueError]. *)
Lemma regular_polygon_short (num_sides : Z) (radius angle : pynum) angles points :
  num_sides < 3 ->
  mapM (polygon_angle num_sides angle) (range num_sides) = Ok angles ->
  mapM (polygon_point radius) angles = Ok points ->
  exists msg, regular_polygon num_sides radius angle = Raise (ValueError msg).
Proof.
  intros Hn Ha Hp. unfold regular_polygon. rewrite Ha. cbn [bind].
  rewrite Hp. cbn [bind]. apply Polygon_short.
  rewrite (mapM_length _ _ _ Hp), (mapM_length _ _ _ Ha), range_length. lia.
Qed.

Lemma regular_polygon_short_raises (num_sides : Z) (radius angle : pynum) :
  num_sides < 3 ->
  exists e, regular_polygon num_sides radius angle = Raise e.
Proof.
  intros Hn.
  destruct (mapM (polygon_angle num_sides angle) (range num_sides)) as [angles|e] eqn:Ha.
  - destruct (mapM (polygon_point radius) angles) as [points|e] eqn:Hp.
    + destruct (regular_polygon_short _ radius angle _ _ Hn Ha Hp) as [msg ->].
      now eexists.
    + unfold regular_polygon. rewrite Ha. cbn [bind]. rewrite Hp. now eexists.
  - unfold regular_polygon. rewrite Ha. now eexists.
Qed.

Lemma py_mul_float (a : pynum) (f : float) (r : pynum) :
  py_mul a (PyFloat f) = Ok r -> exists g, r = PyFloat g.
Proof.
  destruct a as [z|h]; cbn; intros H.
  - destruct (of_int z) as [d|e]; [|discriminate]. cbn in H.
    injection H as <-. now eexists.
  - injection H as <-. now eexists.
Qed.

Lemma math_sin_float (a r : pynum) :
  math_sin a = Ok r -> exists g, r = PyFloat g.
Proof.
  unfold math_sin. destruct (as_float a) as [f|e]; [|discriminate]. cbn.
  destruct (fis_inf f); [discriminate|]. intros H. injection H as <-. now eexists.
Qed.

Lemma math_cos_float (a r : pynum) :
  math_cos a = Ok r -> exists g, r = PyFloat g.
Proof.
  unfold math_cos. destruct (as_float a) as [f|e]; [|discriminate]. cbn.
  destruct (fis_inf f); [discriminate|]. intros H. injection H as <-. now eexists.
Qed.

(** Every point the second comprehension builds is a pair of floats. *)
Lemma polygon_point_floats (radius a : pynum) (pt : list pynum) :
  polygon_point radius a = Ok pt -> exists q, pt = point2 (float_point q).
Proof.
  unfold polygon_point. intros H.
  destruct (math_sin a) as [s|e] eqn:Hs; [|discriminate]. cbn [bind] in H.
  destruct (math_sin_float _ _ Hs) as [fs ->].
  destruct (py_mul radius (PyFloat fs)) as [px|e] eqn:Hx; [|discriminate].
  cbn [bind] in H. destruct (py_mul_float _ _ _ Hx) as [gx ->].
  destruct (math_cos a) as [c|e] eqn:Hc; [|discriminate]. cbn [bind] in H.
  destruct (math_cos_float _ _ Hc) as [fc ->].
  destruct (py_mul radius (PyFloat fc)) as [py|e] eqn:Hy; [|discriminate].
  cbn [bind] in H. destruct (py_mul_float _ _ _ Hy) as [gy ->].
  injection H as <-. now exists (gx, gy).
Qed.

Lemma polygon_points_floats (radius : pynum) (angles : list pynum) points :
  mapM (polygon_point radius) angles = Ok points ->
  exists fs, points = map point2 (map float_point fs).
Proof.
  revert points. induction angles as [|a angles IH]; cbn [mapM]; intros points H.
  - injection H as <-. now exists [].
  - destruct (polygon_point radius a) as [pt|e] eqn:Hpt; [|discriminate].
    cbn [bind] in H.
    destruct (mapM (polygon_point radius) angles) as [pts|e]; [|discriminate].
    cbn [bind] in H. injection H as <-.
    destruct (polygon_point_floats _ _ _ Hpt) as [q ->].
    destruct (IH pts eq_refl) as [fs ->]. now exists (q :: fs).
Qed.

(** In any arithmetic: when the two comprehensions raise nothing and
    [num_sides] is at least 3, the Polygon exists and its [num_sides]
    vertices are the computed points, each coordinate stored in single
    precision. *)
Lemma regular_polygon_stores (num_sides : Z) (radius angle : pynum) angles points :
  3 <= num_sides ->
  mapM (polygon_angle num_sides angle) (range num_sides) = Ok angles ->
  mapM (polygon_point radius) angles = Ok points ->
  exists p fs,
    points = map point2 (map float_point fs) /\
    regular_polygon num_sides radius angle = Ok p /\
    vertices p = map stored fs /\
    length (vertices p) = Z.to_nat num_sides.
Proof.
  intros Hn Ha Hp.
  destruct (polygon_points_floats _ _ _ Hp) as [fs Hfs].
  assert (Hlen : length fs = Z.to_nat num_sides).
  { rewrite <- range_length, <- (mapM_length _ _ _ Ha), <- (mapM_length _ _ _ Hp).
    rewrite Hfs. now rewrite !length_map. }
  destruct (polygon_vertices_floats fs) as [p [HP Hv]]; [lia|].
  exists p, fs. split; [exact Hfs|]. split; [|split].
  - unfold regular_polygon. rewrite Ha. cbn [bind]. rewrite Hp. cbn [bind].
    now rewrite Hfs.
  - exact Hv.
  - now rewrite Hv, length_map.
Qed.

End RegularPolygonProperties.

(** *** The two comprehensions, step by step *)

Lemma mapM_raises {T V : Type} (f : T -> result V) (l : list T) (e : exn) :
  mapM f l = Raise e -> exists a, In a l /\ f a = Raise e.
Proof.
  induction l as [|a l IH]; cbn [mapM]; [discriminate|].
  destruct (f a) as [b|e0] eqn:Ha; cbn [bind].
  - destruct (mapM f l) as [bs|e1]; cbn [bind]; [discriminate|].
    intros H. injection H as ->. destruct (IH eq_refl) as [c [Hin Hc]].
    exists c. split; [now right | exact Hc].
  - intros H. injection H as ->. exists a. split; [now left | exact Ha].
Qed.

Lemma mapM_In {T V : Type} (f : T -> result V) (l : list T) (l' : list V) (b : V) :
  mapM f l = Ok l' -> In b l' -> exists a, In a l /\ f a = Ok b.
Proof.
  revert l'. induction l as [|a l IH]; cbn [mapM]; intros l' H Hb.
  - injection H as <-. destruct Hb.
  - destruct (f a) as [b0|e0] eqn:Ha; [|discriminate]. cbn [bind] in H.
    destruct (mapM f l) as [bs|e1]; [|discriminate]. cbn [bind] in H.
    injection H as <-. destruct Hb as [<-|Hb].
    + exists a. split; [now left | exact Ha].
    + destruct (IH bs eq_refl Hb) as [c [Hin Hc]]. exists c. split; [now right | exact Hc].
Qed.

Section RegularPolygonSteps.
Context {A : Arith} {L : Libm A}.

(** The expression [angle + 2 * n * pi / num_sides]: the product [2 * n] is
    an [int], everything after it is computed in doubles. *)
Lemma polygon_angle_steps (num_sides : Z) (angle : pynum) (n : Z) :
  polygon_angle num_sides angle n =
  (f2n <- of_int (2 * n) ;;
   fN <- of_int num_sides ;;
   if fis_zero fN then Raise ZeroDivisionError
   else a0 <- as_float angle ;; Ok (PyFloat (vertex_angle a0 f2n fN))).
Proof.
  unfold polygon_angle, vertex_angle. cbn -[Z.mul].
  destruct (of_int (2 * n)) as [f2n|e]; [|reflexivity]. cbn.
  destruct (of_int num_sides) as [fN|e]; [|reflexivity]. cbn.
  destruct (fis_zero fN); [reflexivity|]. cbn.
  destruct angle as [z|a]; cbn; [|reflexivity].
  now destruct (of_int z).
Qed.

(** The expression [(radius * sin(a), radius * cos(a))] at a float [a]. *)
Lemma polygon_point_steps (radius : pynum) (a : float) :
  polygon_point radius (PyFloat a) =
  if fis_inf a then Raise (ValueError "math domain error")
  else r <- as_float radius ;; Ok (point2 (float_point (vertex r a))).
Proof.
  unfold polygon_point, math_sin, math_cos, vertex, point2, float_point.
  cbn. destruct (fis_inf a); [reflexivity|]. cbn.
  destruct radius as [z|r]; cbn; [|reflexivity].
  now destruct (of_int z).
Qed.

(** Every angle the first comprehension builds is a float. *)
Lemma polygon_angle_float (num_sides : Z) (angle : pynum) (n : Z) (a : pynum) :
  polygon_angle num_sides angle n = Ok a -> exists f, a = PyFloat f.
Proof.
  rewrite polygon_angle_steps.
  destruct (of_int (2 * n)) as [f2n|e]; [|discriminate]. cbn [bind].
  destruct (of_int num_sides) as [fN|e]; [|discriminate]. cbn [bind].
  destruct (fis_zero fN); [discriminate|].
  destruct (as_float angle) as [a0|e]; [|discriminate]. cbn [bind].
  intros H. injection H as <-. now eexists.
Qed.



(** Fewer than three points of two floats: the constructor raises the
    [ValueError] of its own test, or, without any point, the one of the
    unpacking. *)
Lemma Polygon_no_point : @Polygon A [] =
  Raise (ValueError "not enough values to unpack (expected 2, got 0)").
Proof. reflexivity. Qed.

Lemma Polygon_one_or_two_points (fs : list (float * float)) :
  (1 <= length fs < 3)%nat ->
  Polygon (map point2 (map float_point fs)) =
  Raise (ValueError "A polygon must have at least 3 sides").
Proof.
  destruct fs as [|q [|q' [|q'' fs]]]; cbn [length]; intros H; try lia; reflexivity.
Qed.

(** With no side at all, or a negative number of sides, nothing is computed
    and the constructor is given the empty list. *)
Lemma regular_polygon_no_side (num_sides : Z) (radius angle : pynum) :
  num_sides <= 0 ->
  regular_polygon num_sides radius angle =
  Raise (ValueError "not enough values to unpack (expected 2, got 0)").
Proof.
  intros Hn. unfold regular_polygon, range.
  replace (Z.to_nat num_sides) with 0%nat by lia. reflexivity.
Qed.

(** With one side or two, when the two comprehensions raise nothing, the
    test of the setter raises. *)
Lemma regular_polygon_one_or_two (num_sides : Z) (radius angle : pynum) angles points :
  1 <= num_sides < 3 ->
  mapM (polygon_angle num_sides angle) (range num_sides) = Ok angles ->
  mapM (polygon_point radius) angles = Ok points ->
  regular_polygon num_sides radius angle =
  Raise (ValueError "A polygon must have at least 3 sides").
Proof.
  intros Hn Ha Hp. unfold regular_polygon. rewrite Ha. cbn [bind]. rewrite Hp. cbn [bind].
  destruct (polygon_points_floats _ _ _ Hp) as [fs ->].
  apply Polygon_one_or_two_points.
  apply mapM_length in Hp. apply mapM_length in Ha.
  rewrite !length_map in Hp. rewrite range_length in Ha. lia.
Qed.


End RegularPolygonSteps.

(** *** In IEEE arithmetic *)

Section AnnexF.
(** The C standard (Annex F) fixes [sin] and [cos] at zero. *)
Variables c_sin c_cos : spec_float -> spec_float.
Hypothesis sin_zero : c_sin (S754_zero false) = S754_zero false.
Hypothesis cos_zero : c_cos (S754_zero false) = b64_of_Z 1.



End AnnexF.

(** *** The example [regular_polygon(4, 1, 0)] in doubles *)

Section QuarterTurns.
Variables c_sin c_cos : spec_float -> spec_float.

Lemma quarter_turn_values_at_zero :
  quarter_turn_values c_sin c_cos ->
  c_sin (S754_zero false) = S754_zero false /\ c_cos (S754_zero false) = b64_of_Z 1.
Proof.
  intros [Hs Hc]. cbn [map] in Hs, Hc.
  change (ieee_angle 0) with (S754_zero false) in Hs, Hc.
  split; [now injection Hs | now injection Hc].
Qed.


End QuarterTurns.



(** *** Exceptions in doubles *)

Section RegularPolygonIEEE.
Variables c_sin c_cos : spec_float -> spec_float.

Lemma ieee_as_float_raises (n : @pynum ieee) (e : exn) :
  as_float n = Raise e -> e = OverflowError.
Proof.
  destruct n as [z|f]; cbn [as_float]; [|discriminate].
  change (@of_int ieee z) with (ieee_of_int z). unfold ieee_of_int.
  destruct (b64_of_Z z); intros H; try discriminate. now injection H as <-.
Qed.

(** The angles of one side or two: the one thing that can raise is the
    conversion of an [int] [angle]. *)
Lemma ieee_angles_raise (num_sides : Z) (angle : @pynum ieee) (e : exn) :
  num_sides < 3 ->
  mapM (@polygon_angle ieee (ieee_libm c_sin c_cos) num_sides angle) (range num_sides) =
  Raise e ->
  1 <= num_sides /\ e = OverflowError /\ as_float angle = Raise OverflowError.
Proof.
  intros Hn H. apply mapM_raises in H. destruct H as [n [Hin H]].
  apply in_range in Hin. split; [lia|].
  rewrite polygon_angle_steps in H.
  assert (E : exists f2n fN,
             @of_int ieee (2 * n) = Ok f2n /\ @of_int ieee num_sides = Ok fN /\
             @fis_zero ieee fN = false).
  { assert (C : (num_sides = 1 /\ n = 0) \/ (num_sides = 2 /\ n = 0) \/
                (num_sides = 2 /\ n = 1)) by lia.
    destruct C as [[-> ->] | [[-> ->] | [-> ->]]];
      do 2 eexists; repeat split; reflexivity. }
  destruct E as [f2n [fN [E2 [EN Ez]]]].
  rewrite E2, EN in H. cbn [bind] in H. rewrite Ez in H.
  destruct (as_float angle) as [a0|e0] eqn:Ea; [discriminate|].
  cbn [bind] in H. injection H as <-.
  apply ieee_as_float_raises in Ea as E0. subst e0. split; reflexivity.
Qed.

(** The points: [math.sin] and [math.cos] raise [ValueError] at an infinite
    angle, the product raises [OverflowError] for an [int] [radius] that has
    no double. *)
Lemma ieee_points_raise (radius : @pynum ieee) (angles : list (@pynum ieee)) (e : exn) :
  (forall a, In a angles -> exists f, a = PyFloat f) ->
  mapM (@polygon_point ieee (ieee_libm c_sin c_cos) radius) angles = Raise e ->
  (exists msg, e = ValueError msg) \/
  (e = OverflowError /\ as_float radius = Raise OverflowError).
Proof.
  intros Hf H. apply mapM_raises in H. destruct H as [a [Hin H]].
  destruct (Hf a Hin) as [f ->]. rewrite polygon_point_steps in H.
  destruct (fis_inf f).
  - injection H as <-. left. now eexists.
  - destruct (as_float radius) as [r|e0] eqn:Er; [discriminate|].
    cbn [bind] in H. injection H as <-.
    apply ieee_as_float_raises in Er as E0. subst e0. right. split; reflexivity.
Qed.

(** Fewer than three sides in doubles: [ValueError], or [OverflowError] for
    an [int] argument that has no double. *)
Lemma ieee_regular_polygon_short (num_sides : Z) (radius angle : @pynum ieee) :
  num_sides < 3 ->
  (exists msg, @regular_polygon ieee (ieee_libm c_sin c_cos) num_sides radius angle =
               Raise (ValueError msg)) \/
  (@regular_polygon ieee (ieee_libm c_sin c_cos) num_sides radius angle =
   Raise OverflowError /\
   1 <= num_sides /\
   (as_float radius = Raise OverflowError \/ as_float angle = Raise OverflowError)).
Proof.
  intros Hn.
  destruct (Z.le_gt_cases num_sides 0) as [H0|H1].
  { left. eexists. now apply regular_polygon_no_side. }
  destruct (mapM (@polygon_angle ieee (ieee_libm c_sin c_cos) num_sides angle)
                 (range num_sides)) as [angles|e] eqn:Ha.
  - destruct (mapM (@polygon_point ieee (ieee_libm c_sin c_cos) radius) angles)
      as [points|e] eqn:Hp.
    + left. eexists.
      apply (regular_polygon_one_or_two num_sides radius angle angles points);
        [lia | exact Ha | exact Hp].
    + assert (Hf : forall a, In a angles -> exists f, a = PyFloat f).
      { intros a Hin. destruct (mapM_In _ _ _ _ Ha Hin) as [n [_ Hn']].
        now apply polygon_angle_float in Hn'. }
      unfold regular_polygon. rewrite Ha. cbn [bind]. rewrite Hp. cbn [bind].
      destruct (ieee_points_raise radius angles e Hf Hp) as [[msg ->] | [-> Hr]].
      * left. now eexists.
      * right. split; [reflexivity|]. split; [lia|]. now left.
  - unfold regular_polygon. rewrite Ha. cbn [bind].
    destruct (ieee_angles_raise num_sides angle e Hn Ha) as [_ [-> Hr]].
    right. split; [reflexivity|]. split; [lia|]. now right.
Qed.

(** An [int] radius that has no double: the first product raises. *)
Lemma ieee_regular_polygon_2_huge :
  @regular_polygon ieee (ieee_libm c_sin c_cos) 2 (PyInt (10 ^ 400)) (PyInt 0) =
  Raise OverflowError.
Proof. reflexivity. Qed.


End RegularPolygonIEEE.

(** *** The claims on [regular_polygon] *)




(** C8, as the code has it.  In any arithmetic [regular_polygon] with fewer
    than three sides raises and returns no Polygon; with no side or a
    negative number of sides nothing is computed and the [ValueError] of the
    unpacking is raised; with one side or two, when the two comprehensions
    raise nothing, the [ValueError] of the setter's test is raised.  In IEEE
    doubles the exception is [ValueError], or else [OverflowError] from an
    [int] [radius] or [angle] that has no double; with a float radius and a
    float angle it is always [ValueError]. *)
Theorem regular_polygon_too_few_sides :
  (forall (A : Arith) (L : Libm A) (num_sides : Z) (radius angle : pynum),
      num_sides < 3 ->
      (exists e, regular_polygon num_sides radius angle = Raise e) /\
      (num_sides <= 0 ->
       regular_polygon num_sides radius angle =
       Raise (ValueError "not enough values to unpack (expected 2, got 0)")) /\
      (forall angles points,
          1 <= num_sides ->
          mapM (polygon_angle num_sides angle) (range num_sides) = Ok angles ->
          mapM (polygon_point radius) angles = Ok points ->
          regular_polygon num_sides radius angle =
          Raise (ValueError "A polygon must have at least 3 sides"))) /\
  (forall (c_sin c_cos : spec_float -> spec_float) (num_sides : Z)
          (radius angle : @pynum ieee),
      num_sides < 3 ->
      (exists msg, @regular_polygon ieee (ieee_libm c_sin c_cos) num_sides radius angle =
                   Raise (ValueError msg)) \/
      (@regular_polygon ieee (ieee_libm c_sin c_cos) num_sides radius angle =
       Raise OverflowError /\
       1 <= num_sides /\
       (as_float radius = Raise OverflowError \/ as_float angle = Raise OverflowError))) /\
  (forall (c_sin c_cos : spec_float -> spec_float) (num_sides : Z)
          (radius angle : spec_float),
      num_sides < 3 ->
      exists msg, @regular_polygon ieee (ieee_libm c_sin c_cos) num_sides
                    (@PyFloat ieee radius) (@PyFloat ieee angle) =
                  Raise (ValueError msg)).
Proof.
  split; [|split].
  - intros A L num_sides radius angle Hn. split; [|split].
    + now apply regular_polygon_short_raises.
    + now apply regular_polygon_no_side.
    + intros angles points H1 Ha Hp.
      apply (regular_polygon_one_or_two num_sides radius angle angles points);
        [lia | exact Ha | exact Hp].
  - intros c_sin c_cos num_sides radius angle Hn.
    now apply ieee_regular_polygon_short.
  - intros c_sin c_cos num_sides radius angle Hn.
    destruct (ieee_regular_polygon_short c_sin c_cos num_sides
                (@PyFloat ieee radius) (@PyFloat ieee angle) Hn) as [H | [_ [_ [H | H]]]];
      [exact H | discriminate H | discriminate H].
Qed.

(** What is wrong in C8 as the specification has it:
    [regular_polygon(2, 10 ** 400, 0)] raises [OverflowError] at the first
    product [radius * sin(a)], whatever the C library; the constructor is
    never called and no [ValueError] is raised. *)
Lemma regular_polygon_2_overflows :
  (forall c_sin c_cos : spec_float -> spec_float,
      @regular_polygon ieee (ieee_libm c_sin c_cos) 2 (PyInt (10 ^ 400)) (PyInt 0) =
      Raise OverflowError) /\
  ~ (exists (c_sin c_cos : spec_float -> spec_float) (msg : string),
        @regular_polygon ieee (ieee_libm c_sin c_cos) 2 (PyInt (10 ^ 400)) (PyInt 0) =
        Raise (ValueError msg)).
Proof.
  split; [exact ieee_regular_polygon_2_huge|].
  intros [c_sin [c_cos [msg H]]]. rewrite ieee_regular_polygon_2_huge in H. discriminate H.
Qed.

(** Two sides, radius 1, angle 0, and two sides with the float radius 2.5
    and the float angle 0.1. *)
Lemma regular_polygon_too_few_sides_witness :
  let c_sin := at_quarter_turns quarter_turn_sines in
  let c_cos := at_quarter_turns quarter_turn_cosines in
  @regular_polygon ieee (ieee_libm c_sin c_cos) 2 (PyInt 1) (PyInt 0) =
  Raise (ValueError "A polygon must have at least 3 sides") /\
  exists msg, @regular_polygon ieee (ieee_libm c_sin c_cos) 2
                (@PyFloat ieee b64_2_5) (@PyFloat ieee b64_0_1) = Raise (ValueError msg).
Proof.
  intros c_sin c_cos. split.
  - refine (proj2 (proj2 (proj1 regular_polygon_too_few_sides ieee (ieee_libm c_sin c_cos)
                            2 (PyInt 1) (PyInt 0) _)) _ _ _ eq_refl eq_refl); lia.
  - refine (proj2 (proj2 regular_polygon_too_few_sides) c_sin c_cos 2 b64_2_5 b64_0_1 _).
    lia.
Defined.

(** * Further properties of the code *)

(** ** [zip] on rows of any length *)

Lemma heads_Some {T : Type} (rows : list (list T)) (hs : list T) :
  heads rows = Some hs -> Forall (fun row => (1 <= length row)%nat) rows.
Proof.
  revert hs. induction rows as [|row rows IH]; intros hs H; [constructor|].
  rewrite heads_cons in H. destruct row as [|a row]; [discriminate|].
  destruct (heads rows) as [hs'|]; [|discriminate].
  constructor; [cbn; lia | now apply (IH hs')].
Qed.

Lemma heads_None {T : Type} (rows : list (list T)) :
  heads rows = None -> Exists (fun row => row = []) rows.
Proof.
  induction rows as [|row rows IH]; intros H; [discriminate|].
  rewrite heads_cons in H. destruct row as [|a row]; [now left|].
  right. apply IH. now destruct (heads rows).
Qed.

Lemma heads_Exists_empty {T : Type} (rows : list (list T)) :
  Exists (fun row => row = []) rows -> heads rows = None.
Proof.
  induction 1 as [row rows -> | row rows _ IH]; rewrite heads_cons.
  - reflexivity.
  - rewrite IH. now destruct row.
Qed.

(** [heads] looks at the first item of each row only. *)
Lemma heads_ext {T : Type} (rows rows' : list (list T)) :
  map (@hd_error T) rows = map (@hd_error T) rows' -> heads rows = heads rows'.
Proof.
  revert rows'. induction rows as [|row rows IH]; intros [|row' rows'] H;
    try discriminate; [reflexivity|].
  cbn [map] in H. injection H as Hh Ht. rewrite !heads_cons, (IH rows' Ht).
  destruct row, row'; cbn in Hh; try discriminate; [reflexivity|].
  now injection Hh as ->.
Qed.

Lemma heads_firstn2 {T : Type} (rows : list (list T)) :
  heads (map (firstn 2) rows) = heads rows.
Proof.
  apply heads_ext. rewrite map_map. apply map_ext. now intros [|a [|b row]].
Qed.

Lemma heads_tl_firstn2 {T : Type} (rows : list (list T)) :
  heads (map (@tl T) (map (firstn 2) rows)) = heads (map (@tl T) rows).
Proof.
  apply heads_ext. rewrite !map_map. apply map_ext. now intros [|a [|b row]].
Qed.

(** The columns of rows that have two items at least, one of them exactly
    two: the first items and the second items, whatever follows them. *)
Lemma zip_star_firstn2 {T : Type} (vs : list (list T)) :
  Forall (fun pt => (2 <= length pt)%nat) vs ->
  Exists (fun pt => length pt = 2%nat) vs ->
  zip_star vs = zip_star (map (firstn 2) vs).
Proof.
  intros Hall Hex. destruct vs as [|r rs]; [reflexivity|].
  cbn [zip_star map]. apply Forall_cons_iff in Hall. destruct Hall as [Hr Hrs].
  destruct r as [|a [|b r]]; cbn in Hr; try lia.
  change (firstn 2 (a :: b :: r)) with [a; b].
  cbn [zip_columns]. rewrite heads_firstn2, heads_tl_firstn2.
  destruct (heads rs) as [hs1|]; [|reflexivity].
  destruct (heads (map (@tl T) rs)) as [hs2|]; [|reflexivity].
  do 2 f_equal. destruct r as [|c r]; [reflexivity|].
  cbn [zip_columns]. rewrite heads_Exists_empty; [reflexivity|].
  apply Exists_cons in Hex. destruct Hex as [Hex|Hex]; [cbn in Hex; lia|].
  clear -Hex Hrs. induction Hex as [row rows Hrow | row rows _ IH].
  - left. destruct row as [|x1 [|x2 [|x3 row]]]; cbn in Hrow; try lia. reflexivity.
  - right. apply IH. now apply Forall_cons_iff in Hrs.
Qed.

(** Rows with exactly two columns have two items at least each, and one of
    them has exactly two. *)
Lemma zip_star_two_columns {T : Type} (vs : list (list T)) (xs ys : list T) :
  zip_star vs = [xs; ys] ->
  Forall (fun pt => (2 <= length pt)%nat) vs /\
  Exists (fun pt => length pt = 2%nat) vs.
Proof.
  destruct vs as [|r rs]; [discriminate|]. cbn [zip_star].
  destruct r as [|a [|b r]]; cbn [zip_columns]; try discriminate.
  - destruct (heads rs); discriminate.
  - destruct (heads rs) as [hs1|] eqn:H1; [|discriminate].
    destruct (heads (map (@tl T) rs)) as [hs2|] eqn:H2; [|discriminate].
    intros H.
    assert (Hrs : Forall (fun pt => (2 <= length pt)%nat) rs).
    { apply heads_Some in H2. clear -H2. induction rs as [|row rs IH]; [constructor|].
      cbn [map] in H2. apply Forall_cons_iff in H2. destruct H2 as [Hrow Hrs].
      constructor; [|now apply IH].
      destruct row as [|x1 row]; cbn in Hrow |- *; lia. }
    split; [constructor; [cbn; lia | exact Hrs]|].
    destruct r as [|c r]; [left; reflexivity|]. right.
    cbn [zip_columns] in H.
    destruct (heads (map (@tl T) (map (@tl T) rs))) as [hs3|] eqn:H3; [discriminate|].
    apply heads_None in H3. clear -H3 Hrs.
    induction rs as [|row rs IH]; [inversion H3|].
    apply Forall_cons_iff in Hrs. destruct Hrs as [Hrow Hrs].
    cbn [map] in H3. apply Exists_cons in H3. destruct H3 as [E|E].
    + left. destruct row as [|x1 [|x2 [|x3 row]]]; cbn in *; try lia; discriminate.
    + right. now apply IH.
Qed.

Lemma heads_Forall {T : Type} (rows : list (list T)) :
  Forall (fun row => (1 <= length row)%nat) rows -> exists hs, heads rows = Some hs.
Proof.
  induction 1 as [|row rows Hrow _ [hs IH]]; [now exists []|].
  rewrite heads_cons, IH. destruct row as [|a row]; [cbn in Hrow; lia|]. now eexists.
Qed.

Lemma zip_star_well_shaped {T : Type} (vs : list (list T)) :
  Forall (fun pt => (2 <= length pt)%nat) vs ->
  Exists (fun pt => length pt = 2%nat) vs ->
  exists xs ys, zip_star vs = [xs; ys].
Proof.
  intros Hall Hex. rewrite (zip_star_firstn2 vs Hall Hex).
  destruct vs as [|r rs]; [inversion Hex|].
  apply Forall_cons_iff in Hall. destruct Hall as [Hr Hrs].
  destruct r as [|a [|b r]]; cbn in Hr; try lia.
  cbn [map zip_star]. change (firstn 2 (a :: b :: r)) with [a; b].
  cbn [zip_columns]. rewrite heads_firstn2, heads_tl_firstn2.
  destruct (heads_Forall rs) as [hs1 ->].
  { eapply Forall_impl; [|exact Hrs]. cbn. intros; lia. }
  destruct (heads_Forall (map (@tl T) rs)) as [hs2 ->].
  { apply Forall_map. eapply Forall_impl; [|exact Hrs].
    intros [|x1 row]; cbn; lia. }
  now eexists _, _.
Qed.

(** ** The setter, case by case *)

Section SetterProperties.
Context {A : Arith}.

(** The five ways through the setter. *)
Lemma set_vertices_cases (vs : list (list pynum)) (self : polygon) :
  set_vertices vs self =
  match unpack2 (zip_star vs) with
  | Raise e => (self, Raise e)
  | Ok xy =>
      if len (fst xy) <? 3
      then (self, Raise (ValueError "A polygon must have at least 3 sides"))
      else
        match np_array_float32 (fst xy) with
        | Raise e => (self, Raise e)
        | Ok ax =>
            match np_array_float32 (snd xy) with
            | Raise e => ({| x := ax; y := y self |}, Raise e)
            | Ok ay => ({| x := ax; y := ay |}, Ok tt)
            end
        end
  end.
Proof.
  unfold set_vertices, bindM, lift.
  destruct (unpack2 (zip_star vs)) as [xy|e]; [|reflexivity].
  destruct (len (fst xy) <? 3); [reflexivity|].
  destruct (np_array_float32 (fst xy)) as [ax|e]; [|reflexivity]. cbn [set_x].
  destruct (np_array_float32 (snd xy)) as [ay|e]; reflexivity.
Qed.

Lemma unpack2_Ok {T : Type} (cols : list (list T)) xy :
  unpack2 cols = Ok xy -> cols = [fst xy; snd xy].
Proof.
  destruct cols as [|c1 [|c2 [|c3 cols]]]; cbn; try discriminate.
  intros H. injection H as <-. reflexivity.
Qed.

(** What a successful assignment has done. *)
Lemma set_vertices_Ok (vs : list (list pynum)) (self self' : polygon) :
  set_vertices vs self = (self', Ok tt) ->
  exists xs ys,
    zip_star vs = [xs; ys] /\ (3 <= length vs)%nat /\
    np_array_float32 xs = Ok (x self') /\ np_array_float32 ys = Ok (y self').
Proof.
  rewrite set_vertices_cases.
  destruct (unpack2 (zip_star vs)) as [[xs ys]|e] eqn:Hu; [|discriminate].
  apply unpack2_Ok in Hu. cbn [fst snd] in *.
  destruct (Z.ltb_spec (len xs) 3) as [|Hlen]; [discriminate|].
  destruct (np_array_float32 xs) as [ax|e] eqn:Hx; [|discriminate].
  destruct (np_array_float32 ys) as [ay|e] eqn:Hy; [|discriminate].
  intros H. injection H as <-. exists xs, ys. cbn [x y]. repeat split; try assumption.
  pose proof (zip_star_width vs) as W. rewrite Hu in W. apply Forall_inv in W.
  unfold len in Hlen. lia.
Qed.

Lemma set_vertices_lengths (vs : list (list pynum)) (self self' : polygon) :
  set_vertices vs self = (self', Ok tt) ->
  length (x self') = length vs /\ length (y self') = length vs /\ (3 <= length vs)%nat.
Proof.
  intros Hs.
  destruct (set_vertices_Ok vs self self' Hs) as [xs [ys [Hz [Hlen [Hx Hy]]]]].
  pose proof (zip_star_width vs) as W. rewrite Hz in W.
  pose proof (Forall_inv W) as Wx. pose proof (Forall_inv (Forall_inv_tail W)) as Wy.
  apply mapM_length in Hx, Hy. cbn beta in Wx, Wy.
  repeat split; [congruence | congruence | exact Hlen].
Qed.

Lemma Polygon_Ok (vs : list (list pynum)) (p : polygon) :
  Polygon vs = Ok p -> set_vertices vs cpp_Polygon = (p, Ok tt).
Proof.
  unfold Polygon. destruct (set_vertices vs cpp_Polygon) as [s' [[]|e]]; [|discriminate].
  intros H. now injection H as ->.
Qed.

Lemma Polygon_lengths (vs : list (list pynum)) (p : polygon) :
  Polygon vs = Ok p ->
  length (x p) = length vs /\ length (y p) = length vs /\ (3 <= length vs)%nat.
Proof.
  intros Hp. exact (set_vertices_lengths vs _ _ (Polygon_Ok vs p Hp)).
Qed.

(** X1: the object a successful assignment leaves, and so every Polygon the
    constructor returns, has as many vertices as points were given, three at
    least, and its two arrays have that length. *)
Theorem polygon_invariant (vs : list (list pynum)) :
  (forall self,
      snd (set_vertices vs self) = Ok tt ->
      let self' := fst (set_vertices vs self) in
      length (x self') = length vs /\ length (y self') = length vs /\
      length (vertices self') = length vs /\ (3 <= length (vertices self'))%nat) /\
  (forall p,
      Polygon vs = Ok p ->
      length (x p) = length vs /\ length (y p) = length vs /\
      length (vertices p) = length vs /\ (3 <= length (vertices p))%nat).
Proof.
  assert (H : forall self self',
             set_vertices vs self = (self', Ok tt) ->
             length (x self') = length vs /\ length (y self') = length vs /\
             length (vertices self') = length vs /\ (3 <= length (vertices self'))%nat).
  { intros self self' Hs.
    destruct (set_vertices_lengths vs self self' Hs) as [Lx [Ly Hlen]].
    unfold vertices. rewrite length_combine, Lx, Ly, Nat.min_id. auto. }
  split.
  - intros self Hok self'. subst self'. apply (H self).
    destruct (set_vertices vs self) as [s' r]. cbn [snd] in Hok. now subst r.
  - intros p Hp. apply (H cpp_Polygon). now apply Polygon_Ok.
Qed.

(** X2: what a successful assignment leaves does not depend on the object
    assigned to, nor does the outcome of any assignment: assigning to an
    existing Polygon gives the Polygon the constructor builds. *)
Theorem set_vertices_is_construction (vs : list (list pynum)) (self : polygon) :
  snd (set_vertices vs self) = snd (set_vertices vs cpp_Polygon) /\
  (forall p, Polygon vs = Ok p <-> set_vertices vs self = (p, Ok tt)).
Proof.
  rewrite !set_vertices_cases. unfold Polygon. rewrite set_vertices_cases.
  destruct (unpack2 (zip_star vs)) as [xy|e].
  2: { split; [reflexivity|]. intros p. split; discriminate. }
  destruct (len (fst xy) <? 3).
  { split; [reflexivity|]. intros p. split; discriminate. }
  destruct (np_array_float32 (fst xy)) as [ax|e].
  2: { split; [reflexivity|]. intros p. split; discriminate. }
  destruct (np_array_float32 (snd xy)) as [ay|e].
  2: { split; [reflexivity|]. intros p. split; discriminate. }
  split; [reflexivity|]. intros p. split; intros H; injection H as <-; reflexivity.
Qed.

(** X3: what a failed assignment leaves behind.  The y array is never
    changed.  When the points unpack into two columns, are three or more and
    the x-coordinates convert, the failure is the conversion of the
    y-coordinates and the x array already holds the converted x-coordinates
    of the new points: the object is the old one with the new x array.  In
    every other case the object is unchanged. *)
Theorem set_vertices_failure (vs : list (list pynum)) (self : polygon) (e : exn) :
  snd (set_vertices vs self) = Raise e ->
  let self' := fst (set_vertices vs self) in
  y self' = y self /\
  (forall xs ys ax,
      zip_star vs = [xs; ys] ->
      (3 <= length vs)%nat ->
      np_array_float32 xs = Ok ax ->
      np_array_float32 ys = Raise e /\
      x self' = ax /\
      self' = {| x := ax; y := y self |}) /\
  ((forall xs ys ax,
       zip_star vs = [xs; ys] ->
       (3 <= length vs)%nat ->
       np_array_float32 xs <> Ok ax) ->
   self' = self).
Proof.
  rewrite set_vertices_cases.
  pose proof (zip_star_width vs) as W.
  destruct (unpack2 (zip_star vs)) as [[xs ys]|e0] eqn:Hu.
  - apply unpack2_Ok in Hu. cbn [fst snd] in *. rewrite Hu in W. apply Forall_inv in W.
    destruct (Z.ltb_spec (len xs) 3) as [Hlt|Hlen].
    + cbn [fst snd]. intros _. split; [reflexivity|]. split; [|reflexivity].
      intros xs' ys' ax _ H3 _. unfold len in Hlt. lia.
    + destruct (np_array_float32 xs) as [ax|e1] eqn:Hx.
      * destruct (np_array_float32 ys) as [ay|e2] eqn:Hy; [discriminate|].
        cbn [fst snd x y]. intros H. injection H as <-. split; [reflexivity|]. split.
        -- intros xs' ys' ax' Hz _ Hx'. rewrite Hu in Hz. injection Hz as <- <-.
           rewrite Hx in Hx'. injection Hx' as <-. now split.
        -- intros Hno. exfalso. apply (Hno xs ys ax Hu); [|exact Hx].
           unfold len in Hlen. lia.
      * cbn [fst snd]. intros _. split; [reflexivity|]. split; [|reflexivity].
        intros xs' ys' ax Hz _ Hx'. rewrite Hu in Hz. injection Hz as <- <-.
        rewrite Hx in Hx'. discriminate.
  - cbn [fst snd]. intros _. split; [reflexivity|]. split; [|reflexivity].
    intros xs ys ax Hz _ _. rewrite Hz in Hu. discriminate.
Qed.

(** X4: the constructor and the setter use the first two coordinates of each
    point only, as soon as one point has no more than two. *)
Theorem polygon_ignores_further_coordinates (vs : list (list pynum)) :
  Forall (fun pt => (2 <= length pt)%nat) vs ->
  Exists (fun pt => length pt = 2%nat) vs ->
  Polygon vs = Polygon (map (firstn 2) vs) /\
  forall self, set_vertices vs self = set_vertices (map (firstn 2) vs) self.
Proof.
  intros Hall Hex.
  assert (H : forall self, set_vertices vs self = set_vertices (map (firstn 2) vs) self).
  { intros self. rewrite !set_vertices_cases. now rewrite (zip_star_firstn2 vs Hall Hex). }
  split; [|exact H]. unfold Polygon. now rewrite H.
Qed.

(** X5: a Polygon is only ever built from a well-shaped list of points:
    three points or more, each of two coordinates at least, one of exactly
    two.  Three-dimensional points, for one, are refused. *)
Theorem polygon_accepts_well_shaped_only (vs : list (list pynum)) :
  (forall p, Polygon vs = Ok p -> well_shaped vs) /\
  (~ well_shaped vs -> exists msg, Polygon vs = Raise (ValueError msg)).
Proof.
  split.
  - intros p Hp. unfold Polygon in Hp.
    destruct (set_vertices vs cpp_Polygon) as [s' [[]|e]] eqn:Hs; [|discriminate].
    destruct (set_vertices_Ok vs _ _ Hs) as [xs [ys [Hz [Hlen _]]]].
    destruct (zip_star_two_columns vs xs ys Hz) as [Hall Hex].
    now repeat split.
  - intros Hn. unfold Polygon. rewrite set_vertices_cases.
    destruct (unpack2 (zip_star vs)) as [[xs ys]|e] eqn:Hu.
    + apply unpack2_Ok in Hu. cbn [fst snd] in *.
      destruct (zip_star_two_columns vs xs ys Hu) as [Hall Hex].
      pose proof (zip_star_width vs) as W. rewrite Hu in W. apply Forall_inv in W.
      destruct (Z.ltb_spec (len xs) 3) as [|Hlen]; [now eexists|].
      exfalso. apply Hn. repeat split; try assumption. unfold len in Hlen. lia.
    + destruct (zip_star vs) as [|c1 [|c2 [|c3 cols]]]; cbn in Hu;
        try discriminate; injection Hu as <-; now eexists.
Qed.

End SetterProperties.

(** ** [rectangle], once more *)

Section RectangleMore.
Context {A : Arith}.

Lemma py_truediv_float (a b r : pynum) :
  py_truediv a b = Ok r -> exists f, r = PyFloat f.
Proof.
  unfold py_truediv. destruct a as [m|fa], b as [n|fb]; cbn.
  - destruct (n =? 0); [discriminate|].
    destruct (int_truediv m n); [|discriminate]. cbn. intros H. injection H as <-. now eexists.
  - destruct (of_int m); [|discriminate]. cbn.
    destruct (fis_zero fb); [discriminate|]. intros H. injection H as <-. now eexists.
  - destruct (of_int n) as [d|]; [|discriminate]. cbn.
    destruct (fis_zero d); [discriminate|]. intros H. injection H as <-. now eexists.
  - destruct (fis_zero fb); [discriminate|]. intros H. injection H as <-. now eexists.
Qed.

Lemma halved_float (v : pyval) (r : pynum) :
  halved v = Ok r -> exists f, r = PyFloat f.
Proof.
  unfold halved. destruct (as_num v) as [n|e]; [|discriminate]. cbn [bind].
  apply py_truediv_float.
Qed.

(** [rectangle] is its two divisions followed by the constructor. *)
Lemma rectangle_steps (x y : pyval) :
  rectangle x y =
  (x0 <- halved x ;;
   y0 <- halved (if truthy y then y else x) ;;
   Polygon [[x0; y0]; [x0; py_neg y0]; [py_neg x0; py_neg y0]; [py_neg x0; y0]]).
Proof.
  unfold rectangle, halved. destruct (as_num x) as [xn|e]; [|reflexivity]. cbn [bind].
  destruct (py_truediv xn (PyInt 2)) as [x0|e]; [|reflexivity]. cbn [bind].
  now destruct (as_num (if truthy y then y else x)).
Qed.

(** X6: whatever [rectangle] returns has exactly four vertices, the four
    corners of the two computed halves, stored in single precision: nothing
    else is ever returned. *)
Theorem rectangle_returns_corners (x y : pyval) (p : polygon) :
  rectangle x y = Ok p ->
  exists x0 y0,
    halved x = Ok (PyFloat x0) /\
    halved (if truthy y then y else x) = Ok (PyFloat y0) /\
    vertices p = map stored (corners x0 y0) /\
    length (vertices p) = 4%nat.
Proof.
  intros Hp. pose proof Hp as Hs. rewrite rectangle_steps in Hs.
  destruct (halved x) as [x0|e] eqn:Hx; [|discriminate]. cbn [bind] in Hs.
  destruct (halved (if truthy y then y else x)) as [y0|e] eqn:Hy; [|discriminate].
  destruct (halved_float _ _ Hx) as [fx ->]. destruct (halved_float _ _ Hy) as [fy ->].
  exists fx, fy. split; [reflexivity|]. split; [reflexivity|].
  destruct (rectangle_corners x y fx fy Hx Hy) as [q [Hq Hv]].
  assert (q = p) by congruence. subst q. now rewrite Hv.
Qed.

End RectangleMore.

Section RectangleIEEE.
#[local] Existing Instance ieee.

Lemma ieee_of_int_raises (z : Z) (e : exn) :
  ieee_of_int z = Raise e -> e = OverflowError.
Proof.
  unfold ieee_of_int. destruct (b64_of_Z z); intros H; try discriminate.
  now injection H as <-.
Qed.

Lemma ieee_int_truediv_raises (a b : Z) (e : exn) :
  ieee_int_truediv a b = Raise e -> e = OverflowError.
Proof.
  unfold ieee_int_truediv. destruct (SFdiv 53 1024 _ _); intros H; try discriminate.
  now injection H as <-.
Qed.

Lemma ieee_halved_float (f : spec_float) :
  halved (py_float f) = Ok (PyFloat (SFdiv 53 1024 f (b64_of_Z 2))).
Proof. reflexivity. Qed.

Lemma ieee_halved_raises (v : pyval) (e : exn) :
  halved v = Raise e -> (v = PyNone /\ e = TypeError) \/ e = OverflowError.
Proof.
  destruct v as [|b|[z|f]].
  - intros H. left. split; [reflexivity|]. now injection H as <-.
  - unfold halved, as_num, py_truediv. cbn [bind]. change (2 =? 0) with false. cbv iota.
    change (@int_truediv ieee) with ieee_int_truediv.
    destruct (ieee_int_truediv (Z.b2z b) 2) eqn:E; [discriminate|].
    intros H. injection H as <-. right. now apply ieee_int_truediv_raises in E.
  - unfold halved, as_num, py_truediv. cbn [bind]. change (2 =? 0) with false. cbv iota.
    change (@int_truediv ieee) with ieee_int_truediv.
    destruct (ieee_int_truediv z 2) eqn:E; [discriminate|].
    intros H. injection H as <-. right. now apply ieee_int_truediv_raises in E.
  - change (PyNum (PyFloat f)) with (py_float f). rewrite ieee_halved_float. discriminate.
Qed.

(** X7: in IEEE arithmetic [rectangle] raises [TypeError] exactly when [x]
    is [None], whatever [y] is; the only other exception it can raise is
    [OverflowError], from an [int] whose half is too large for a double.  It
    never raises [ValueError] or [ZeroDivisionError]. *)
Theorem rectangle_exceptions (x y : pyval) :
  (x = PyNone -> rectangle x y = Raise TypeError) /\
  (forall e, rectangle x y = Raise e ->
             (e = TypeError /\ x = PyNone) \/ e = OverflowError).
Proof.
  split; [now intros ->|].
  intros e. rewrite rectangle_steps.
  destruct (halved x) as [x0|ex] eqn:Hx.
  2: { cbn [bind]. intros H. injection H as <-.
       destruct (ieee_halved_raises x ex Hx) as [[-> ->] | ->]; auto. }
  cbn [bind].
  destruct (halved (if truthy y then y else x)) as [y0|ey] eqn:Hy.
  2: { cbn [bind]. intros H. injection H as <-.
       destruct (ieee_halved_raises _ ey Hy) as [[Hn ->] | ->]; [|auto].
       left. split; [reflexivity|].
       destruct (truthy y) eqn:Ht; [|exact Hn]. subst y. discriminate. }
  cbn [bind].
  destruct (halved_float _ _ Hx) as [fx ->]. destruct (halved_float _ _ Hy) as [fy ->].
  destruct (polygon_vertices_floats (corners fx fy)) as [p [Hp _]]; [cbn; lia|].
  cbn [corners map] in Hp. unfold point2, float_point in Hp. cbn [fst snd] in Hp.
  cbn [py_neg]. rewrite Hp.
  discriminate.
Qed.

(** X8: in IEEE arithmetic [rectangle] refuses no float, be it zero,
    negative, infinite or not a number: with float sizes, or one float size
    alone, it always returns a Polygon. *)
Theorem rectangle_accepts_every_float (a b : spec_float) :
  (exists p, rectangle (py_float a) (py_float b) = Ok p) /\
  (exists p, rectangle (py_float a) PyNone = Ok p).
Proof.
  split.
  - destruct (rectangle_corners (py_float a) (py_float b)
                (SFdiv 53 1024 a (b64_of_Z 2))
                (SFdiv 53 1024 (if truthy (py_float b) then b else a) (b64_of_Z 2)))
      as [p [Hp _]]; [reflexivity | now destruct (truthy (py_float b)) | now exists p].
  - destruct (rectangle_corners (py_float a) PyNone
                (SFdiv 53 1024 a (b64_of_Z 2)) (SFdiv 53 1024 a (b64_of_Z 2)))
      as [p [Hp _]]; [reflexivity | reflexivity | now exists p].
Qed.

(** Rounding to single precision commutes with negation. *)
Lemma binary_round_aux_opp (prec emax : Z) (s : bool) (m e : Z) (l : location) :
  SFopp (binary_round_aux prec emax s m e l) = binary_round_aux prec emax (negb s) m e l.
Proof.
  unfold binary_round_aux.
  destruct (shr_fexp prec emax m e l) as [mrs' e'].
  destruct (shr_fexp prec emax _ e' loc_Exact) as [mrs'' e''].
  destruct (shr_m mrs''); [reflexivity | | reflexivity].
  now destruct (Z.leb e'' (emax - prec)).
Qed.

Lemma b32_of_b64_opp (f : spec_float) :
  b32_of_b64 (SFopp f) = SFopp (b32_of_b64 f).
Proof.
  destruct f as [s|s| |s m e]; try reflexivity.
  cbn [SFopp b32_of_b64]. unfold binary_round.
  destruct (shl_align m e _) as [mz ez]. now rewrite binary_round_aux_opp.
Qed.

(** X9: in IEEE arithmetic the stored rectangle is exactly symmetric: its
    vertices are [(a, b)], [(a, -b)], [(-a, -b)], [(-a, b)] for two single
    precision numbers [a] and [b], rounding having broken none of the
    symmetries. *)
Theorem rectangle_symmetric (x y : pyval) (p : polygon) :
  rectangle x y = Ok p ->
  exists a b : spec_float,
    vertices p = [(a, b); (a, SFopp b); (SFopp a, SFopp b); (SFopp a, b)].
Proof.
  intros Hp. pose proof Hp as Hs. rewrite rectangle_steps in Hs.
  destruct (halved x) as [x0|e] eqn:Hx; [|discriminate]. cbn [bind] in Hs.
  destruct (halved (if truthy y then y else x)) as [y0|e] eqn:Hy; [|discriminate].
  destruct (halved_float _ _ Hx) as [fx ->]. destruct (halved_float _ _ Hy) as [fy ->].
  destruct (rectangle_corners x y fx fy Hx Hy) as [q [Hq Hv]].
  assert (q = p) by congruence. subst q.
  exists (b32_of_b64 fx), (b32_of_b64 fy). rewrite Hv.
  change (map stored (corners fx fy))
    with [(b32_of_b64 fx, b32_of_b64 fy); (b32_of_b64 fx, b32_of_b64 (SFopp fy));
          (b32_of_b64 (SFopp fx), b32_of_b64 (SFopp fy));
          (b32_of_b64 (SFopp fx), b32_of_b64 fy)].
  now rewrite !b32_of_b64_opp.
Qed.

(** ** The exceptions of the constructor *)

Lemma ieee_np_array_raises (t : list pynum) (e : exn) :
  np_array_float32 t = Raise e -> e = OverflowError.
Proof.
  unfold np_array_float32. induction t as [|n t IH]; cbn [mapM]; [discriminate|].
  unfold np_float32 at 1. destruct n as [z|f]; cbn [as_float bind].
  - change (@of_int ieee z) with (ieee_of_int z).
    destruct (ieee_of_int z) as [d|e0] eqn:E.
    + cbn [bind]. destruct (mapM np_float32 t); [discriminate|].
      cbn [bind]. intros H. injection H as <-. now apply IH.
    + cbn [bind]. intros H. injection H as <-. now apply ieee_of_int_raises in E.
  - destruct (mapM np_float32 t); [discriminate|].
    cbn [bind]. intros H. injection H as <-. now apply IH.
Qed.

(** X10: in IEEE arithmetic the constructor raises [ValueError] exactly on
    the lists of points that are not well-shaped; on a well-shaped list the
    one thing that can go wrong is an [int] coordinate too large for a
    double, which raises [OverflowError]. *)
Theorem polygon_exceptions (vs : list (list pynum)) (e : exn) :
  Polygon vs = Raise e ->
  ((exists msg, e = ValueError msg) /\ ~ well_shaped vs) \/
  (e = OverflowError /\ well_shaped vs).
Proof.
  unfold Polygon. rewrite set_vertices_cases.
  pose proof (zip_star_width vs) as W.
  destruct (unpack2 (zip_star vs)) as [[xs ys]|e0] eqn:Hu.
  - apply unpack2_Ok in Hu. cbn [fst snd] in *. rewrite Hu in W. apply Forall_inv in W.
    destruct (zip_star_two_columns vs xs ys Hu) as [Hall Hex].
    destruct (Z.ltb_spec (len xs) 3) as [Hlt|Hlen].
    + intros H. injection H as <-. left. split; [now eexists|].
      intros [Hge _]. unfold len in Hlt. lia.
    + assert (Hw : well_shaped vs).
      { repeat split; try assumption. unfold len in Hlen. lia. }
      destruct (np_array_float32 xs) as [ax|e1] eqn:Hx.
      * destruct (np_array_float32 ys) as [ay|e2] eqn:Hy; [discriminate|].
        intros H. injection H as <-. right. split; [|exact Hw].
        now apply ieee_np_array_raises in Hy.
      * intros H. injection H as <-. right. split; [|exact Hw].
        now apply ieee_np_array_raises in Hx.
  - intros H. injection H as <-. left. split.
    + destruct (zip_star vs) as [|c1 [|c2 [|c3 cols]]]; cbn in Hu;
        try discriminate; injection Hu as <-; now eexists.
    + intros [_ [Hall Hex]].
      destruct (zip_star_well_shaped vs Hall Hex) as [xs [ys Hz]].
      rewrite Hz in Hu. discriminate.
Qed.

End RectangleIEEE.

(** ** [Polygon.plot] *)

Lemma combine_snoc {T U : Type} (l : list T) (l' : list U) (a : T) (b : U) :
  length l = length l' -> combine (l ++ [a]) (l' ++ [b]) = combine l l' ++ [(a, b)].
Proof.
  revert l'. induction l as [|c l IH]; intros [|c' l'] H; cbn in H; try discriminate.
  - reflexivity.
  - cbn. f_equal. apply IH. lia.
Qed.

Section PlotProperties.
Context {A : Arith}.

(** X11: [plot] never fails on a Polygon the constructor has returned, and
    the outline it draws is closed: it is the vertices, in their order,
    followed by the first vertex once more, one point more than the Polygon
    has vertices.  [IndexError] is for objects with an empty array only. *)
Theorem plot_outline_closed :
  (forall vs p,
      Polygon vs = Ok p ->
      exists v0,
        hd_error (vertices p) = Some v0 /\
        plot_outline p = Outline (x p ++ [fst v0]) (y p ++ [snd v0]) /\
        outline_points (plot_outline p) = vertices p ++ [v0] /\
        length (outline_points (plot_outline p)) = S (length vs)) /\
  (forall self, plot_outline self = IndexError <-> x self = [] \/ y self = []).
Proof.
  split.
  - intros vs p Hp. destruct (Polygon_lengths vs p Hp) as [Lx [Ly Hlen]].
    unfold plot_outline, vertices, np_append.
    destruct (x p) as [|x0 xs] eqn:Ex; [cbn in Lx; lia|].
    destruct (y p) as [|y0 ys] eqn:Ey; [cbn in Ly; lia|].
    exists (x0, y0). cbn [hd_error combine fst snd outline_points].
    split; [reflexivity|]. split; [reflexivity|].
    rewrite <- !app_comm_cons. cbn [combine].
    assert (L : length xs = length ys) by (cbn in Lx, Ly; lia).
    rewrite (combine_snoc xs ys x0 y0 L). split; [reflexivity|].
    cbn [length]. rewrite length_app, length_combine. cbn in Lx, Ly |- *. lia.
  - intros self. unfold plot_outline.
    destruct (x self) as [|x0 xs]; [cbn; tauto|].
    destruct (y self) as [|y0 ys]; cbn [hd_error].
    + tauto.
    + split; [discriminate | intros [H|H]; discriminate].
Qed.

End PlotProperties.

(** ** [regular_polygon], once more *)

Section RegularPolygonMore.
Context {A : Arith} {L : Libm A}.

(** X12: in any arithmetic, whatever [regular_polygon] returns was asked
    for with three sides at least and has exactly [num_sides] vertices, the
    points of the second comprehension stored in single precision. *)
Theorem regular_polygon_returns (num_sides : Z) (radius angle : pynum) (p : polygon) :
  regular_polygon num_sides radius angle = Ok p ->
  3 <= num_sides /\
  length (vertices p) = Z.to_nat num_sides /\
  exists angles fs,
    mapM (polygon_angle num_sides angle) (range num_sides) = Ok angles /\
    mapM (polygon_point radius) angles = Ok (map point2 (map float_point fs)) /\
    vertices p = map stored fs.
Proof.
  intros Hp. pose proof Hp as Hs. unfold regular_polygon in Hs.
  destruct (mapM (polygon_angle num_sides angle) (range num_sides)) as [angles|e] eqn:Ha;
    [|discriminate]. cbn [bind] in Hs.
  destruct (mapM (polygon_point radius) angles) as [points|e] eqn:Hpt; [|discriminate].
  cbn [bind] in Hs. destruct (Polygon_lengths points p Hs) as [_ [_ Hlen]].
  rewrite (mapM_length _ _ _ Hpt), (mapM_length _ _ _ Ha), range_length in Hlen.
  assert (Hn : 3 <= num_sides) by lia. split; [exact Hn|].
  destruct (regular_polygon_stores num_sides radius angle angles points Hn Ha Hpt)
    as [q [fs [Hfs [Hq [Hv Hl]]]]].
  assert (q = p) by congruence. subst q. split; [exact Hl|].
  exists angles, fs. now rewrite <- Hfs.
Qed.

End RegularPolygonMore.

(** ** The descriptors, once more *)

Section DescriptorsMore.
Context {A : Arith}.

Lemma py_or_zero_cases (v : pyval) :
  (truthy v = true /\ py_or v (PyNum (PyInt 0)) = v) \/
  (truthy v = false /\ py_or v (PyNum (PyInt 0)) = PyNum (PyInt 0)).
Proof. unfold py_or. destruct (truthy v); auto. Qed.

Lemma py_or_zero_idempotent (v : pyval) :
  py_or (py_or v (PyNum (PyInt 0))) (PyNum (PyInt 0)) = py_or v (PyNum (PyInt 0)).
Proof.
  destruct (py_or_zero_cases v) as [[Ht ->] | [_ ->]]; [|reflexivity].
  unfold py_or. now rewrite Ht.
Qed.

(** X13: the descriptor keeps the flag as it is given, and each of its
    lengths is decided by the argument of its own direction: a truthy
    argument is passed on as it is, a falsy one ([None], [False], 0, 0.0,
    -0.0) is replaced by the [int] 0, so no length is [None]; building the
    descriptor again from its own lengths and flag gives the same
    descriptor. *)
Theorem primitive_normalises (v1 v2 v3 : pyval) (nm : bool) :
  let p := primitive v1 v2 v3 nm in
  prim_nanometers p = nm /\
  (forall d,
      (truthy (prim_argument v1 v2 v3 d) = true ->
       prim_length p d = prim_argument v1 v2 v3 d) /\
      (truthy (prim_argument v1 v2 v3 d) = false ->
       prim_length p d = PyNum (PyInt 0)) /\
      prim_length p d <> PyNone) /\
  primitive (prim_length p D1) (prim_length p D2) (prim_length p D3) (prim_nanometers p) = p.
Proof.
  intros p. subst p. split; [reflexivity|]. split.
  - intros d.
    assert (H : forall v, (truthy v = true -> py_or v (PyNum (PyInt 0)) = v) /\
                          (truthy v = false -> py_or v (PyNum (PyInt 0)) = PyNum (PyInt 0)) /\
                          py_or v (PyNum (PyInt 0)) <> PyNone).
    { intros v. destruct (py_or_zero_cases v) as [[Ht E] | [Ht E]]; rewrite E, Ht.
      - split; [reflexivity|]. split; [discriminate|]. intros ->. discriminate.
      - split; [discriminate|]. split; [reflexivity | discriminate]. }
    destruct d; cbn [prim_length prim_lengths primitive prim_argument]; apply H.
  - unfold primitive. cbn [prim_length prim_lengths prim_nanometers].
    now rewrite !py_or_zero_idempotent.
Qed.

(** X14: no encoded translation length is a [bool]; encoding an encoded
    value changes nothing, so the descriptor of the encoded lengths is the
    descriptor itself; and the two booleans are told apart. *)
Theorem to_cpp_params_normalises :
  (forall v b, to_cpp_params v <> PyBool b) /\
  (forall v, to_cpp_params (to_cpp_params v) = to_cpp_params v) /\
  (forall a1 a2 a3,
      translational_symmetry (to_cpp_params a1) (to_cpp_params a2) (to_cpp_params a3) =
      translational_symmetry a1 a2 a3) /\
  (forall b b', to_cpp_params (PyBool b) = to_cpp_params (PyBool b') -> b = b').
Proof.
  assert (I : forall v, to_cpp_params (to_cpp_params v) = to_cpp_params v).
  { now intros [|[|]|n]. }
  split; [|split; [exact I|split]].
  - intros [|[|]|n] b; discriminate.
  - intros a1 a2 a3. unfold translational_symmetry. now rewrite !I.
  - intros [|] [|]; cbn; congruence.
Qed.

End DescriptorsMore.

(** ** The winding of the stored rectangle *)

Lemma exact_opp (f : spec_float) (q : Q) :
  exact f = Some q -> exists q', exact (SFopp f) = Some q' /\ (q' == - q)%Q.
Proof.
  destruct f as [s|s| |s m e]; cbn [exact SFopp]; intros H; try discriminate;
    injection H as <-.
  - exists 0%Q. split; reflexivity.
  - eexists. split; [reflexivity|].
    destruct s; cbn [cond_Zopp negb];
      change (inject_Z (- Z.pos m)) with (- inject_Z (Z.pos m))%Q; ring.
Qed.

Lemma exact_opp_None (f : spec_float) :
  exact f = None -> exact (SFopp f) = None.
Proof. destruct f; cbn [exact SFopp]; intros H; try discriminate; reflexivity. Qed.

Lemma Qcompare_opp_double (c t : Q) :
  (c == - (2 * t))%Q -> (c ?= 0)%Q = CompOpp (t ?= 0)%Q.
Proof.
  intros E. rewrite E.
  destruct (Qcompare_spec t 0) as [H|H|H]; cbn [CompOpp].
  - apply Qeq_alt. rewrite H. ring.
  - apply Qgt_alt. rewrite <- (Qplus_0_l 0).
    setoid_replace (- (2 * t))%Q with ((- t) + (- t))%Q by ring.
    assert (H0 : (0 < - t)%Q) by (apply (Qopp_lt_compat t 0) in H; exact H).
    apply Qplus_lt_le_compat; [exact H0 | now apply Qlt_le_weak].
  - apply Qlt_alt. rewrite <- (Qplus_0_l 0).
    setoid_replace (- (2 * t))%Q with ((- t) + (- t))%Q by ring.
    assert (H0 : (- t < 0)%Q) by (apply (Qopp_lt_compat 0 t) in H; exact H).
    apply Qplus_lt_le_compat; [exact H0 | now apply Qlt_le_weak].
Qed.

(** The four turns of a symmetric rectangle have the cross product
    [- 2 * a * b]. *)
Lemma symmetric_turns (a b : spec_float) (qa qb : Q) :
  exact a = Some qa -> exact b = Some qb ->
  turns [(a, b); (a, SFopp b); (SFopp a, SFopp b); (SFopp a, b)] =
  repeat (Some (CompOpp (qa * qb ?= 0)%Q)) 4.
Proof.
  intros Ha Hb.
  destruct (exact_opp a qa Ha) as [qa' [Ha' Ea]].
  destruct (exact_opp b qb Hb) as [qb' [Hb' Eb]].
  unfold turns, turn, cross. cbn [map combine app fst snd repeat].
  rewrite Ha, Hb, Ha', Hb'. cbn [option_map].
  repeat f_equal; apply Qcompare_opp_double; rewrite ?Ea, ?Eb; ring.
Qed.

Lemma symmetric_turns_None (a b : spec_float) :
  exact a = None \/ exact b = None ->
  turns [(a, b); (a, SFopp b); (SFopp a, SFopp b); (SFopp a, b)] = repeat None 4.
Proof.
  intros H. unfold turns, turn, cross. cbn [map combine app fst snd repeat].
  destruct H as [H|H]; pose proof (exact_opp_None _ H) as H'; rewrite H, H'.
  - reflexivity.
  - now destruct (exact a), (exact (SFopp a)).
Qed.

Section RectangleWinding.
#[local] Existing Instance ieee.

(** The vertices [rectangle] stores, from the two halves it computes. *)
Lemma rectangle_stored_halves (x y : pyval) (p : polygon) :
  rectangle x y = Ok p ->
  exists fx fy : spec_float,
    halved x = Ok (PyFloat fx) /\
    halved (if truthy y then y else x) = Ok (PyFloat fy) /\
    vertices p =
    [(b32_of_b64 fx, b32_of_b64 fy); (b32_of_b64 fx, SFopp (b32_of_b64 fy));
     (SFopp (b32_of_b64 fx), SFopp (b32_of_b64 fy));
     (SFopp (b32_of_b64 fx), b32_of_b64 fy)].
Proof.
  intros Hp. pose proof Hp as Hs. rewrite rectangle_steps in Hs.
  destruct (halved x) as [x0|e] eqn:Hx; [|discriminate]. cbn [bind] in Hs.
  destruct (halved (if truthy y then y else x)) as [y0|e] eqn:Hy; [|discriminate].
  destruct (halved_float _ _ Hx) as [fx ->]. destruct (halved_float _ _ Hy) as [fy ->].
  destruct (rectangle_corners x y fx fy Hx Hy) as [q [Hq Hv]].
  assert (q = p) by congruence. subst q.
  exists fx, fy. split; [reflexivity|]. split; [reflexivity|]. rewrite Hv.
  change (map stored (corners fx fy))
    with [(b32_of_b64 fx, b32_of_b64 fy); (b32_of_b64 fx, b32_of_b64 (SFopp fy));
          (b32_of_b64 (SFopp fx), b32_of_b64 (SFopp fy));
          (b32_of_b64 (SFopp fx), b32_of_b64 fy)].
  now rewrite !b32_of_b64_opp.
Qed.

(** X15: in IEEE arithmetic the stored rectangle turns the same way at each
    of its four corners, and the way is decided by the signs of the two
    stored half-sides [a] and [b], the cross product of each corner with
    the next being [- 2 * a * b] exactly: clockwise when they have the same
    sign, counter-clockwise when their signs differ, no turn at all when one
    of them is stored as zero; with an infinite or undefined half-side no
    turn is defined. *)
Theorem rectangle_winding (x y : pyval) (p : polygon) :
  rectangle x y = Ok p ->
  exists fx fy : spec_float,
    halved x = Ok (PyFloat fx) /\
    halved (if truthy y then y else x) = Ok (PyFloat fy) /\
    (forall qa qb,
        exact (b32_of_b64 fx) = Some qa ->
        exact (b32_of_b64 fy) = Some qb ->
        turns (vertices p) = repeat (Some (CompOpp (qa * qb ?= 0)%Q)) 4) /\
    (exact (b32_of_b64 fx) = None \/ exact (b32_of_b64 fy) = None ->
     turns (vertices p) = repeat None 4).
Proof.
  intros Hp. destruct (rectangle_stored_halves x y p Hp) as [fx [fy [Hx [Hy Hv]]]].
  exists fx, fy. split; [exact Hx|]. split; [exact Hy|]. rewrite Hv. split.
  - intros qa qb Ha Hb. now apply symmetric_turns.
  - apply symmetric_turns_None.
Qed.

End RectangleWinding.

(** ** The further properties at concrete inputs *)

(** The triangle [(0, 0)], [(4, 0)], [(0, 3)]. *)
Lemma polygon_invariant_witness :
  let vs := [[@PyInt ieee 0; PyInt 0]; [PyInt 4; PyInt 0]; [PyInt 0; PyInt 3]] in
  let p := ieee_polygon [b32_of_Z 0; b32_of_Z 4; b32_of_Z 0]
                        [b32_of_Z 0; b32_of_Z 0; b32_of_Z 3] in
  Polygon vs = Ok p /\
  length (x p) = length vs /\ length (y p) = length vs /\
  length (vertices p) = length vs /\ (3 <= length (vertices p))%nat.
Proof.
  intros vs p. assert (Hp : Polygon vs = Ok p) by reflexivity.
  split; [exact Hp|]. exact (proj2 (@polygon_invariant ieee vs) p Hp).
Defined.

(** The square of side 4 assigned a triangle whose last y-coordinate is too
    large for a double: the x array is the triangle's, the y array still the
    square's. *)
Lemma set_vertices_failure_witness :
  let vs := [[@PyInt ieee 0; PyInt 0]; [PyInt 2; PyInt 0]; [PyInt 0; PyInt (10 ^ 400)]] in
  let ax := [b32_of_Z 0; b32_of_Z 2; b32_of_Z 0] in
  let self' := fst (set_vertices vs square_4) in
  snd (set_vertices vs square_4) = Raise OverflowError /\
  y self' = y square_4 /\
  x self' = ax /\
  self' = ieee_polygon ax (y square_4) /\
  x self' <> x square_4.
Proof.
  intros vs ax self'.
  assert (H : snd (set_vertices vs square_4) = Raise OverflowError) by reflexivity.
  split; [exact H|].
  destruct (@set_vertices_failure ieee vs square_4 OverflowError H) as [Hy [Hx _]].
  destruct (Hx [PyInt 0; PyInt 2; PyInt 0] [PyInt 0; PyInt 0; PyInt (10 ^ 400)] ax
               eq_refl ltac:(cbn; lia) eq_refl) as [_ [Hax Hself]].
  split; [exact Hy|]. split; [exact Hax|]. split; [exact Hself|].
  intros E. unfold self' in E. rewrite Hax in E. discriminate E.
Defined.

(** Three points, of three, two and four coordinates. *)
Lemma polygon_ignores_further_coordinates_witness :
  let vs := [[@PyInt ieee 1; PyInt 2; PyInt 9]; [PyInt 3; PyInt 4];
             [PyInt 5; PyInt 6; PyInt 7; PyInt 8]] in
  Forall (fun pt => (2 <= length pt)%nat) vs /\
  Exists (fun pt => length pt = 2%nat) vs /\
  Polygon vs = Polygon [[PyInt 1; PyInt 2]; [PyInt 3; PyInt 4]; [PyInt 5; PyInt 6]].
Proof.
  intros vs.
  assert (Hall : Forall (fun pt => (2 <= length pt)%nat) vs)
    by (repeat constructor; cbn; lia).
  assert (Hex : Exists (fun pt => length pt = 2%nat) vs) by (right; left; reflexivity).
  split; [exact Hall|]. split; [exact Hex|].
  exact (proj1 (@polygon_ignores_further_coordinates ieee vs Hall Hex)).
Defined.

(** Three three-dimensional points. *)
Lemma polygon_accepts_well_shaped_only_witness :
  let vs := [[@PyInt ieee 1; PyInt 2; PyInt 3]; [PyInt 4; PyInt 5; PyInt 6];
             [PyInt 7; PyInt 8; PyInt 9]] in
  ~ well_shaped vs /\ exists msg, Polygon vs = Raise (ValueError msg).
Proof.
  intros vs.
  assert (Hn : ~ well_shaped vs).
  { intros [_ [_ H]]. apply Exists_exists in H. destruct H as [pt [Hin Hl]].
    destruct Hin as [<-|[<-|[<-|[]]]]; discriminate. }
  split; [exact Hn|]. exact (proj2 (@polygon_accepts_well_shaped_only ieee vs) Hn).
Defined.

(** [rectangle(4)] *)
Lemma rectangle_returns_corners_witness :
  rectangle (py_int 4) PyNone = Ok square_4 /\
  exists x0 y0,
    halved (py_int 4) = Ok (@PyFloat ieee x0) /\
    halved (py_int 4) = Ok (@PyFloat ieee y0) /\
    vertices square_4 = map stored (corners x0 y0) /\
    length (vertices square_4) = 4%nat.
Proof.
  assert (H : rectangle (py_int 4) PyNone = Ok square_4) by reflexivity.
  split; [exact H|]. exact (@rectangle_returns_corners ieee _ _ _ H).
Defined.

(** [rectangle(None, 3)] and [rectangle(10 ** 400)] *)
Lemma rectangle_exceptions_witness :
  rectangle PyNone (py_int 3) = Raise TypeError /\
  rectangle (py_int (10 ^ 400)) PyNone = Raise OverflowError /\
  ((OverflowError = TypeError /\ py_int (10 ^ 400) = PyNone) \/
   OverflowError = OverflowError).
Proof.
  split; [exact (proj1 (rectangle_exceptions PyNone (py_int 3)) eq_refl)|].
  assert (H : rectangle (py_int (10 ^ 400)) PyNone = Raise OverflowError) by reflexivity.
  split; [exact H|]. exact (proj2 (rectangle_exceptions _ _) OverflowError H).
Defined.

(** [rectangle(0.2, 0.2)] *)
Lemma rectangle_symmetric_witness :
  rectangle (py_float b64_0_2) (py_float b64_0_2) = Ok square_0_2 /\
  exists a b : spec_float,
    vertices square_0_2 = [(a, b); (a, SFopp b); (SFopp a, SFopp b); (SFopp a, b)].
Proof.
  assert (H : rectangle (py_float b64_0_2) (py_float b64_0_2) = Ok square_0_2)
    by reflexivity.
  split; [exact H|]. exact (rectangle_symmetric _ _ _ H).
Defined.

(** A triangle with a coordinate too large for a double. *)
Lemma polygon_exceptions_witness :
  let vs := [[@PyInt ieee (10 ^ 400); PyInt 0]; [PyInt 1; PyInt 0]; [PyInt 0; PyInt 1]] in
  Polygon vs = Raise OverflowError /\
  (((exists msg, OverflowError = ValueError msg) /\ ~ well_shaped vs) \/
   (OverflowError = OverflowError /\ well_shaped vs)).
Proof.
  intros vs. assert (H : Polygon vs = Raise OverflowError) by reflexivity.
  split; [exact H|]. exact (polygon_exceptions vs OverflowError H).
Defined.

(** The outline of the triangle [(0.1, 0)], [(1, 0)], [(0, 1)]. *)
Lemma plot_outline_closed_witness :
  Polygon (map point2 (map (@float_point ieee) tenth_triangle)) = Ok stored_tenth_triangle /\
  exists v0,
    hd_error (vertices stored_tenth_triangle) = Some v0 /\
    plot_outline stored_tenth_triangle =
    Outline (x stored_tenth_triangle ++ [fst v0]) (y stored_tenth_triangle ++ [snd v0]) /\
    outline_points (plot_outline stored_tenth_triangle) =
    vertices stored_tenth_triangle ++ [v0] /\
    length (outline_points (plot_outline stored_tenth_triangle)) = 4%nat.
Proof.
  assert (H : Polygon (map point2 (map (@float_point ieee) tenth_triangle)) =
              Ok stored_tenth_triangle) by reflexivity.
  split; [exact H|]. exact (proj1 (@plot_outline_closed ieee) _ _ H).
Defined.

(** [regular_polygon(4, 1, 0)] with the values of the C library. *)
Lemma regular_polygon_returns_witness :
  let L := ieee_libm (at_quarter_turns quarter_turn_sines)
                     (at_quarter_turns quarter_turn_cosines) in
  @regular_polygon ieee L 4 (PyInt 1) (PyInt 0) = Ok unit_diamond /\
  3 <= 4 /\
  length (vertices unit_diamond) = Z.to_nat 4 /\
  exists angles fs,
    mapM (@polygon_angle ieee L 4 (PyInt 0)) (range 4) = Ok angles /\
    mapM (@polygon_point ieee L (PyInt 1)) angles = Ok (map point2 (map float_point fs)) /\
    vertices unit_diamond = map stored fs.
Proof.
  intros L.
  assert (H : @regular_polygon ieee L 4 (PyInt 1) (PyInt 0) = Ok unit_diamond)
    by reflexivity.
  split; [exact H|].
  exact (@regular_polygon_returns ieee L 4 (PyInt 1) (PyInt 0) unit_diamond H).
Defined.

(** [primitive(2.5, None, False)] *)
Lemma primitive_normalises_witness :
  let p := primitive (py_float b64_2_5) PyNone (PyBool false) false in
  prim_length p D1 = py_float b64_2_5 /\
  prim_length p D2 = py_int 0 /\
  prim_length p D3 = py_int 0.
Proof.
  intros p.
  pose proof (proj1 (proj2 (@primitive_normalises ieee (py_float b64_2_5) PyNone
                                                  (PyBool false) false))) as H.
  split; [exact (proj1 (H D1) eq_refl)|].
  split; [exact (proj1 (proj2 (H D2)) eq_refl) | exact (proj1 (proj2 (H D3)) eq_refl)].
Defined.

(** [True] and [True] *)
Lemma to_cpp_params_normalises_witness :
  @to_cpp_params ieee (PyBool true) = to_cpp_params (PyBool true) /\ true = true.
Proof.
  split; [reflexivity|].
  exact (proj2 (proj2 (proj2 (@to_cpp_params_normalises ieee))) true true eq_refl).
Defined.

(** [rectangle(4)] turns clockwise, [rectangle(-4.0, 4.0)] counter-clockwise,
    and [rectangle(1e-50, 4.0)], whose half-width is stored as zero, not at
    all. *)
Lemma rectangle_winding_witness :
  rectangle (py_int 4) PyNone = Ok square_4 /\
  turns (vertices square_4) = repeat (Some Lt) 4 /\
  (exists p, rectangle (py_float (b64_of_Z (-4))) (py_float (b64_of_Z 4)) = Ok p /\
             turns (vertices p) = repeat (Some Gt) 4) /\
  (exists p, rectangle (py_float b64_1e_50) (py_float (b64_of_Z 4)) = Ok p /\
             turns (vertices p) = repeat (Some Eq) 4).
Proof.
  assert (H : rectangle (py_int 4) PyNone = Ok square_4) by reflexivity.
  split; [exact H|]. split.
  - destruct (rectangle_winding (py_int 4) PyNone square_4 H) as [fx [fy [Hx [Hy [Ht _]]]]].
    assert (Ex : fx = b64_of_Z 2).
    { assert (E : halved (py_int 4) = Ok (@PyFloat ieee (b64_of_Z 2))) by reflexivity.
      rewrite E in Hx. now injection Hx as <-. }
    assert (Ey : fy = b64_of_Z 2).
    { assert (E : halved (py_int 4) = Ok (@PyFloat ieee (b64_of_Z 2))) by reflexivity.
      change (halved (py_int 4) = Ok (@PyFloat ieee fy)) in Hy.
      rewrite E in Hy. now injection Hy as <-. }
    subst fx fy. exact (Ht _ _ eq_refl eq_refl).
  - split; eexists; (split; [reflexivity|]); reflexivity.
Defined.
